(** * SoundRecorder: the capture lifecycle of [sf::SoundRecorder]

    A shallow embedding of [src/SFML/Audio/SoundRecorder.cpp].

    The recorder is stateful code talking to two outside parties: the
    OpenAL capture API (an external library) and the virtual hooks a
    derived class supplies.  Both are parameters of the development.  Every
    call that crosses one of these two borders, every diagnostic written to
    [err()] and every [sleep] is appended to a trace, so that statements of
    the form "the backend is closed exactly once" or "no hook call happens
    after ..." are statements about a list of events.

    The member functions are written in a small state monad over the whole
    program state ([World]), so that each definition can be read side by
    side with the C++ function it embeds. *)

From Stdlib Require Import ZArith String List Bool Lia.
Import ListNotations.

Local Open Scope string_scope.
Local Open Scope list_scope.
Local Open Scope Z_scope.

(** ** Data *)

(** [ALCdevice*]: a capture handle, [None] being the NULL pointer. *)
Definition ALCdevice : Type := option N.

(** [if (captureDevice)] / [if (!captureDevice)] on a pointer. *)
Definition non_null (d : ALCdevice) : bool :=
  match d with Some _ => true | None => false end.

(** What can be observed from outside the recorder, in program order. *)
Inductive Event : Type :=
| IsExtensionSupported (ext : string) (r : bool)
| AlcGetString (r : string)
| AlcCaptureOpenDevice (name : string) (freq : Z) (buffersize : Z) (r : ALCdevice)
| AlcCaptureStart (d : ALCdevice)
| AlcGetIntegerv (d : ALCdevice) (r : Z)
| AlcCaptureSamples (d : ALCdevice) (n : Z)
| AlcCaptureStop (d : ALCdevice)
| AlcCaptureCloseDevice (d : ALCdevice)
| OnStart (r : bool)
| OnProcessSamples (samples : list Z) (count : Z) (r : bool)
| OnStop
| Sleep (t : Z)
| Err (msg : string).

(** The OpenAL capture API as the recorder uses it.  [B] is whatever state
    the audio library and the hardware keep; each entry is the call of the
    same name in the source with the constant arguments dropped
    ([AL_FORMAT_MONO16], [ALC_CAPTURE_SAMPLES], the NULL device of
    [alcGetString]).  [alcCaptureSamples] returns the samples the library
    writes through the pointer it is given. *)
Record Backend (B : Type) : Type := {
  isExtensionSupported : string -> B -> bool;
  alcGetString : B -> string;
  alcCaptureOpenDevice : string -> Z -> Z -> B -> ALCdevice * B;
  alcCaptureStart : ALCdevice -> B -> B;
  alcGetIntegerv : ALCdevice -> B -> Z * B;
  alcCaptureSamples : ALCdevice -> Z -> B -> list Z * B;
  alcCaptureStop : ALCdevice -> B -> B;
  alcCaptureCloseDevice : ALCdevice -> B -> B
}.

Arguments isExtensionSupported {B}.
Arguments alcGetString {B}.
Arguments alcCaptureOpenDevice {B}.
Arguments alcCaptureStart {B}.
Arguments alcGetIntegerv {B}.
Arguments alcCaptureSamples {B}.
Arguments alcCaptureStop {B}.
Arguments alcCaptureCloseDevice {B}.

(** The virtual member functions a derived class overrides.  [U] is the
    state of the derived class; the hooks see the samples and their own
    state, and do not reach back into the recorder. *)
Record Hooks (U : Type) : Type := {
  onStart : U -> bool * U;
  onProcessSamples : list Z -> Z -> U -> bool * U;
  onStop : U -> U
}.

Arguments onStart {U}.
Arguments onProcessSamples {U}.
Arguments onStop {U}.

(** The base-class bodies, [SoundRecorder::onStart] and
    [SoundRecorder::onStop]: "Nothing to do". *)
Definition SoundRecorder_onStart {U : Type} (u : U) : bool * U := (true, u).
Definition SoundRecorder_onStop {U : Type} (u : U) : U := u.

(** Modelled from the spec: [sf::Thread], whose source is not part of
    [SoundRecorder.cpp].  The spec gives the capture thread the states
    NotRunning, Capturing and Draining; the drain is one uninterrupted
    pass of the thread, so between two calls of the public API the thread
    is either not running or at the head of its loop. *)
Inductive ThreadState : Type := NotRunning | Running.

(** The whole program state: the file-level [captureDevice], the members
    of the one [SoundRecorder] object, the state of the audio library, the
    state of the derived class, and the trace. *)
Record World (B U : Type) : Type := mkWorld {
  captureDevice : ALCdevice;
  m_thread : ThreadState;
  m_samples : list Z;
  m_sampleRate : Z;
  m_processingInterval : Z;
  m_isCapturing : bool;
  m_deviceName : string;
  backend : B;
  user : U;
  trace : list Event
}.

Arguments mkWorld {B U}.
Arguments captureDevice {B U}.
Arguments m_thread {B U}.
Arguments m_samples {B U}.
Arguments m_sampleRate {B U}.
Arguments m_processingInterval {B U}.
Arguments m_isCapturing {B U}.
Arguments m_deviceName {B U}.
Arguments backend {B U}.
Arguments user {B U}.
Arguments trace {B U}.

(** ** The monad: state, plus running out of fuel

    Only [m_thread.wait()] can fail to return (it joins a thread that runs
    a [while] loop), so [OutOfFuel] can only come from there. *)
Inductive Result (W A : Type) : Type :=
| Done (a : A) (w : W)
| OutOfFuel.

Arguments Done {W A}.
Arguments OutOfFuel {W A}.

Definition M (W A : Type) : Type := W -> Result W A.

Definition ret {W A : Type} (a : A) : M W A := fun w => Done a w.

Definition bind {W A C : Type} (m : M W A) (k : A -> M W C) : M W C :=
  fun w => match m w with
           | Done a w' => k a w'
           | OutOfFuel => OutOfFuel
           end.

Definition gets {W A : Type} (f : W -> A) : M W A := fun w => Done (f w) w.

Definition modify {W : Type} (f : W -> W) : M W unit := fun w => Done tt (f w).

Definition out_of_fuel {W A : Type} : M W A := fun _ => OutOfFuel.

(** The value a computation returns, if it returns. *)
Definition eval {W A : Type} (m : M W A) (w : W) : option A :=
  match m w with Done a _ => Some a | OutOfFuel => None end.

Declare Scope recorder_scope.
Delimit Scope recorder_scope with rec.

Notation "x <- m ;; k" := (bind m (fun x => k))
  (at level 61, m at next level, right associativity) : recorder_scope.
Notation "m ;; k" := (bind m (fun _ => k))
  (at level 61, right associativity) : recorder_scope.

Local Open Scope recorder_scope.

(** ** Field updates *)

Section Setters.

Context {B U : Type}.

Definition set_captureDevice (v : ALCdevice) (w : World B U) : World B U :=
  mkWorld v (m_thread w) (m_samples w) (m_sampleRate w) (m_processingInterval w)
          (m_isCapturing w) (m_deviceName w) (backend w) (user w) (trace w).

Definition set_m_thread (v : ThreadState) (w : World B U) : World B U :=
  mkWorld (captureDevice w) v (m_samples w) (m_sampleRate w) (m_processingInterval w)
          (m_isCapturing w) (m_deviceName w) (backend w) (user w) (trace w).

Definition set_m_samples (v : list Z) (w : World B U) : World B U :=
  mkWorld (captureDevice w) (m_thread w) v (m_sampleRate w) (m_processingInterval w)
          (m_isCapturing w) (m_deviceName w) (backend w) (user w) (trace w).

Definition set_m_sampleRate (v : Z) (w : World B U) : World B U :=
  mkWorld (captureDevice w) (m_thread w) (m_samples w) v (m_processingInterval w)
          (m_isCapturing w) (m_deviceName w) (backend w) (user w) (trace w).

Definition set_m_processingInterval (v : Z) (w : World B U) : World B U :=
  mkWorld (captureDevice w) (m_thread w) (m_samples w) (m_sampleRate w) v
          (m_isCapturing w) (m_deviceName w) (backend w) (user w) (trace w).

Definition set_m_isCapturing (v : bool) (w : World B U) : World B U :=
  mkWorld (captureDevice w) (m_thread w) (m_samples w) (m_sampleRate w)
          (m_processingInterval w) v (m_deviceName w) (backend w) (user w) (trace w).

Definition set_m_deviceName (v : string) (w : World B U) : World B U :=
  mkWorld (captureDevice w) (m_thread w) (m_samples w) (m_sampleRate w)
          (m_processingInterval w) (m_isCapturing w) v (backend w) (user w) (trace w).

Definition set_backend (v : B) (w : World B U) : World B U :=
  mkWorld (captureDevice w) (m_thread w) (m_samples w) (m_sampleRate w)
          (m_processingInterval w) (m_isCapturing w) (m_deviceName w) v (user w) (trace w).

Definition set_user (v : U) (w : World B U) : World B U :=
  mkWorld (captureDevice w) (m_thread w) (m_samples w) (m_sampleRate w)
          (m_processingInterval w) (m_isCapturing w) (m_deviceName w) (backend w) v (trace w).

(** Appends one event to the trace. *)
Definition log (e : Event) (w : World B U) : World B U :=
  mkWorld (captureDevice w) (m_thread w) (m_samples w) (m_sampleRate w)
          (m_processingInterval w) (m_isCapturing w) (m_deviceName w) (backend w) (user w)
          (trace w ++ [e]).

(** Appends several. *)
Definition logs (evs : list Event) (w : World B U) : World B U :=
  mkWorld (captureDevice w) (m_thread w) (m_samples w) (m_sampleRate w)
          (m_processingInterval w) (m_isCapturing w) (m_deviceName w) (backend w) (user w)
          (trace w ++ evs).

End Setters.

(** ** Conversions and containers *)

(** [unsigned int] to [ALCsizei] (a 32-bit [int]): the fourth argument of
    [alcCaptureOpenDevice] is the sample rate read as a signed size. *)
Definition to_ALCsizei (n : Z) : Z :=
  if n <? 2 ^ 31 then n else n - 2 ^ 32.

(** [std::vector<Int16>::resize(n)]: keeps the first [n] samples and pads
    with zeros. *)
Definition resize (v : list Z) (n : Z) : list Z :=
  firstn (Z.to_nat n) v ++ repeat 0 (Z.to_nat n - length v)%nat.

(** A write of [data] through [&m_samples[0]]: it lands on the leading
    samples of the vector, whose size stays what [resize] made it. *)
Definition store_samples (data v : list Z) : list Z :=
  firstn (length v) (data ++ skipn (length data) v).

Arguments resize : simpl never.
Arguments store_samples : simpl never.

(** [std::string::empty]. *)
Definition empty (s : string) : bool :=
  match s with EmptyString => true | String _ _ => false end.

(** Modelled from the spec: [sf::milliseconds], which builds the
    "duration controlling poll cadence"; [sf::Time] is not under [src/],
    and the unit kept here is the microsecond. *)
Definition milliseconds (n : Z) : Z := n * 1000.

(** The diagnostics written to [err()]. *)
Definition msg_unavailable : string :=
  "Failed to start capture : your system cannot capture audio data (call SoundRecorder::isAvailable to check it)".
Definition msg_busy : string :=
  "Trying to start audio capture, but another capture is already running".
Definition msg_open_failed (name : string) : string :=
  ("Failed to open the audio capture device with the name: " ++ name)%string.

(** ** The recorder *)

Section Recorder.

Context {B U : Type}.
Variable al : Backend B.
Variable impl : Hooks U.

Local Abbreviation World := (World B U).
Local Abbreviation M := (M World).

(** *** Calls that leave the recorder: each one is logged *)

Definition call_isExtensionSupported (ext : string) : M bool :=
  fun w => let r := isExtensionSupported al ext (backend w) in
           Done r (log (IsExtensionSupported ext r) w).

Definition call_alcGetString : M string :=
  fun w => let r := alcGetString al (backend w) in
           Done r (log (AlcGetString r) w).

Definition call_alcCaptureOpenDevice (name : string) (freq buffersize : Z) : M ALCdevice :=
  fun w => let '(d, b) := alcCaptureOpenDevice al name freq buffersize (backend w) in
           Done d (log (AlcCaptureOpenDevice name freq buffersize d) (set_backend b w)).

Definition call_alcCaptureStart (d : ALCdevice) : M unit :=
  fun w => Done tt (log (AlcCaptureStart d) (set_backend (alcCaptureStart al d (backend w)) w)).

Definition call_alcGetIntegerv (d : ALCdevice) : M Z :=
  fun w => let '(n, b) := alcGetIntegerv al d (backend w) in
           Done n (log (AlcGetIntegerv d n) (set_backend b w)).

(** [alcCaptureSamples(d, &m_samples[0], n)]. *)
Definition call_alcCaptureSamples (d : ALCdevice) (n : Z) : M unit :=
  fun w => let '(data, b) := alcCaptureSamples al d n (backend w) in
           Done tt (log (AlcCaptureSamples d n)
                        (set_m_samples (store_samples data (m_samples w)) (set_backend b w))).

Definition call_alcCaptureStop (d : ALCdevice) : M unit :=
  fun w => Done tt (log (AlcCaptureStop d) (set_backend (alcCaptureStop al d (backend w)) w)).

Definition call_alcCaptureCloseDevice (d : ALCdevice) : M unit :=
  fun w => Done tt (log (AlcCaptureCloseDevice d)
                        (set_backend (alcCaptureCloseDevice al d (backend w)) w)).

Definition call_onStart : M bool :=
  fun w => let '(r, u) := onStart impl (user w) in
           Done r (log (OnStart r) (set_user u w)).

Definition call_onProcessSamples (samples : list Z) (count : Z) : M bool :=
  fun w => let '(r, u) := onProcessSamples impl samples count (user w) in
           Done r (log (OnProcessSamples samples count r) (set_user u w)).

Definition call_onStop : M unit :=
  fun w => Done tt (log OnStop (set_user (onStop impl (user w)) w)).

(** Modelled from the spec: [err() << ...], "reports a diagnostic". *)
Definition err (msg : string) : M unit := modify (log (Err msg)).

(** Modelled from the spec: [sf::sleep], "sleep for the current
    ProcessingInterval value"; only the fact that it happened, and for how
    long, is kept. *)
Definition sleep (t : Z) : M unit := modify (log (Sleep t)).

(** *** Static member functions *)

(** [SoundRecorder::isAvailable]; [||] does not evaluate its right
    operand when the left one is true. *)
Definition isAvailable : M bool :=
  a <- call_isExtensionSupported "ALC_EXT_CAPTURE" ;;
  if a then ret true else call_isExtensionSupported "ALC_EXT_capture".

(** [SoundRecorder::getDefaultDevice]. *)
Definition getDefaultDevice : M string := call_alcGetString.

(** *** The capture thread *)

(** [SoundRecorder::processCapturedSamples]. *)
Definition processCapturedSamples : M unit :=
  dev <- gets captureDevice ;;
  samplesAvailable <- call_alcGetIntegerv dev ;;
  if 0 <? samplesAvailable then
    modify (fun w => set_m_samples (resize (m_samples w) samplesAvailable) w) ;;
    call_alcCaptureSamples dev samplesAvailable ;;
    samples <- gets m_samples ;;
    ok <- call_onProcessSamples samples (Z.of_nat (length samples)) ;;
    if negb ok then modify (set_m_isCapturing false) else ret tt
  else ret tt.

(** [SoundRecorder::cleanup]. *)
Definition cleanup : M unit :=
  dev <- gets captureDevice ;;
  call_alcCaptureStop dev ;;
  processCapturedSamples ;;
  dev <- gets captureDevice ;;
  call_alcCaptureCloseDevice dev ;;
  modify (set_captureDevice None).

(** The body of the [while] loop of [SoundRecorder::record]. *)
Definition record_body : M unit :=
  processCapturedSamples ;;
  t <- gets m_processingInterval ;;
  sleep t.

(** [SoundRecorder::record], from the head of its loop.  The loop ends
    only when [m_isCapturing] is found false, so the function takes fuel:
    one unit per test of the loop condition. *)
Fixpoint record (fuel : nat) : M unit :=
  match fuel with
  | O => out_of_fuel
  | S fuel' =>
      c <- gets m_isCapturing ;;
      if c then record_body ;; record fuel' else cleanup
  end.

(** Modelled from the spec: [m_thread.launch()], "launches the Capture
    Thread": the thread is at the head of [record]. *)
Definition thread_launch : M unit := modify (set_m_thread Running).

(** Modelled from the spec: [m_thread.wait()], "blocks until the Capture
    Thread has fully terminated (including its drain/cleanup pass)"; with
    no thread running it returns at once. *)
Definition thread_wait (fuel : nat) : M unit :=
  t <- gets m_thread ;;
  match t with
  | Running => record fuel ;; modify (set_m_thread NotRunning)
  | NotRunning => ret tt
  end.

(** Modelled from the spec: the progress the capture thread makes on its
    own while the caller's thread is between two calls.  One step is one
    test of the loop condition with what follows it: a whole iteration, or
    the cleanup and the end of the thread.  A write of [false] to
    [m_isCapturing] by the caller commutes with the rest of an iteration
    (the body never reads the flag and only ever writes [false]), so
    letting the caller act only between iterations loses no behaviour. *)
Definition thread_step : M unit :=
  t <- gets m_thread ;;
  match t with
  | Running =>
      c <- gets m_isCapturing ;;
      if c then record_body else cleanup ;; modify (set_m_thread NotRunning)
  | NotRunning => ret tt
  end.

Fixpoint thread_run (k : nat) : M unit :=
  match k with
  | O => ret tt
  | S k' => thread_step ;; thread_run k'
  end.

(** *** Non-static member functions *)

(** The constructor [SoundRecorder::SoundRecorder]. *)
Definition SoundRecorder_ctor : M unit :=
  modify (set_m_thread NotRunning) ;;
  modify (set_m_sampleRate 0) ;;
  modify (set_m_isCapturing false) ;;
  modify (set_m_processingInterval (milliseconds 100)) ;;
  name <- getDefaultDevice ;;
  modify (set_m_deviceName name).

(** [SoundRecorder::start]. *)
Definition start (sampleRate : Z) : M bool :=
  available <- isAvailable ;;
  if negb available then
    err msg_unavailable ;; ret false
  else
    dev <- gets captureDevice ;;
    if non_null dev then
      err msg_busy ;; ret false
    else
      name <- gets m_deviceName ;;
      dev <- call_alcCaptureOpenDevice name sampleRate (to_ALCsizei sampleRate) ;;
      modify (set_captureDevice dev) ;;
      if negb (non_null dev) then
        err (msg_open_failed name) ;; ret false
      else
        modify (set_m_samples []) ;;
        modify (set_m_sampleRate sampleRate) ;;
        ok <- call_onStart ;;
        if ok then
          dev <- gets captureDevice ;;
          call_alcCaptureStart dev ;;
          modify (set_m_isCapturing true) ;;
          thread_launch ;;
          ret true
        else
          ret false.

(** [SoundRecorder::stop]. *)
Definition stop (fuel : nat) : M unit :=
  modify (set_m_isCapturing false) ;;
  thread_wait fuel ;;
  call_onStop.

(** [SoundRecorder::getSampleRate]. *)
Definition getSampleRate : M Z := gets m_sampleRate.

(** [SoundRecorder::getDevice]. *)
Definition getDevice : M string := gets m_deviceName.

(** [SoundRecorder::setProcessingInterval]. *)
Definition setProcessingInterval (interval : Z) : M unit :=
  modify (set_m_processingInterval interval).

(** [SoundRecorder::setDevice]. *)
Definition setDevice (fuel : nat) (name : string) : M bool :=
  (if empty name then
     d <- getDefaultDevice ;; modify (set_m_deviceName d)
   else
     modify (set_m_deviceName name)) ;;
  c <- gets m_isCapturing ;;
  if c then
    modify (set_m_isCapturing false) ;;
    thread_wait fuel ;;
    rate <- gets m_sampleRate ;;
    dev <- call_alcCaptureOpenDevice name rate (to_ALCsizei rate) ;;
    modify (set_captureDevice dev) ;;
    if negb (non_null dev) then
      call_onStop ;;
      stored <- gets m_deviceName ;;
      err (msg_open_failed stored) ;;
      ret false
    else
      dev <- gets captureDevice ;;
      call_alcCaptureStart dev ;;
      modify (set_m_isCapturing true) ;;
      thread_launch ;;
      ret true
  else
    ret true.

End Recorder.

Arguments processCapturedSamples : simpl never.
Arguments cleanup : simpl never.
Arguments record_body : simpl never.
Arguments thread_wait : simpl never.
Arguments thread_step : simpl never.
Arguments isAvailable : simpl never.

(** ** The device list

    [SoundRecorder::getAvailableDevices] walks the memory
    [alcGetString(NULL, ALC_CAPTURE_DEVICE_SPECIFIER)] points to.  A
    [const ALchar*] is modelled by the characters from the pointer to the
    end of the object it points into ([None] being NULL), so that
    [p += k] drops [k] characters, and a read past the last character,
    which C leaves undefined, makes the function answer [None]. *)

(** [std::strlen]: the number of characters before the first NUL. *)
Fixpoint strlen (p : list Ascii.ascii) : option nat :=
  match p with
  | [] => None
  | c :: q => if Ascii.eqb c Ascii.zero then Some O else option_map S (strlen q)
  end.

(** [std::string] built from a [const char] pointer: the characters
    before the first NUL. *)
Definition std_string (p : list Ascii.ascii) : option string :=
  option_map (fun n => string_of_list_ascii (firstn n p)) (strlen p).

(** The [while] loop on the character under [deviceList]; every
    iteration moves the pointer forward, so the length of the memory
    bounds the iterations. *)
Fixpoint getAvailableDevices_loop
  (fuel : nat) (deviceList : list Ascii.ascii) (deviceNameList : list string)
  : option (list string) :=
  match fuel with
  | O => None
  | S fuel' =>
      match deviceList with
      | [] => None
      | c :: _ =>
          if Ascii.eqb c Ascii.zero then Some deviceNameList
          else
            match std_string deviceList, strlen deviceList with
            | Some name, Some n =>
                getAvailableDevices_loop fuel' (skipn (n + 1) deviceList)
                                         (deviceNameList ++ [name])
            | _, _ => None
            end
      end
  end.

(** [SoundRecorder::getAvailableDevices], given what [alcGetString]
    returned. *)
Definition getAvailableDevices (deviceList : option (list Ascii.ascii))
  : option (list string) :=
  match deviceList with
  | None => Some []
  | Some p => getAvailableDevices_loop (S (length p)) p []
  end.

(** The layout OpenAL documents for a device list: each name followed by
    a NUL, and one more NUL at the end. *)
Definition device_list_bytes (names : list string) : list Ascii.ascii :=
  flat_map (fun name => list_ascii_of_string name ++ [Ascii.zero]) names ++ [Ascii.zero].

(** A name that can stand in such a list: not empty, no NUL inside. *)
Definition device_name (name : string) : Prop :=
  name <> EmptyString /\ ~ In Ascii.zero (list_ascii_of_string name).

(** ** Reading traces *)

(** The events a run from [w] to [w'] added. *)
Definition new_events {B U : Type} (w w' : World B U) : list Event :=
  skipn (length (trace w)) (trace w').

(** What a pass of the capture thread never touches: the slot, the thread
    handle, the rate, the interval, the name. *)
Definition same_config {B U : Type} (w w' : World B U) : Prop :=
  captureDevice w' = captureDevice w /\
  m_thread w' = m_thread w /\
  m_sampleRate w' = m_sampleRate w /\
  m_processingInterval w' = m_processingInterval w /\
  m_deviceName w' = m_deviceName w.

(** The counts [onProcessSamples] was called with, in order. *)
Definition hook_counts (evs : list Event) : list Z :=
  flat_map (fun e => match e with OnProcessSamples _ n _ => [n] | _ => [] end) evs.

(** The counts the backend reported available, in order. *)
Definition poll_counts (evs : list Event) : list Z :=
  flat_map (fun e => match e with AlcGetIntegerv _ n => [n] | _ => [] end) evs.

Definition is_open (e : Event) : bool :=
  match e with AlcCaptureOpenDevice _ _ _ _ => true | _ => false end.
Definition is_close (e : Event) : bool :=
  match e with AlcCaptureCloseDevice _ => true | _ => false end.
Definition is_capture_start (e : Event) : bool :=
  match e with AlcCaptureStart _ => true | _ => false end.
Definition is_capture_stop (e : Event) : bool :=
  match e with AlcCaptureStop _ => true | _ => false end.
Definition is_onStop (e : Event) : bool :=
  match e with OnStop => true | _ => false end.
Definition is_onProcessSamples (e : Event) : bool :=
  match e with OnProcessSamples _ _ _ => true | _ => false end.

Definition is_onStart (e : Event) : bool :=
  match e with OnStart _ => true | _ => false end.

(** How many events of a kind a trace holds. *)
Definition count (p : Event -> bool) (evs : list Event) : nat :=
  length (filter p evs).

(** The events of the capture loop proper: polls, pulls, hook calls and
    sleeps. *)
Definition loop_event (e : Event) : bool :=
  match e with
  | AlcGetIntegerv _ _ | AlcCaptureSamples _ _ | OnProcessSamples _ _ _ | Sleep _ => true
  | _ => false
  end.

(** One poll-and-forward pass on device [d]: a poll that reports nothing,
    or a poll reporting [n > 0] followed by a pull of [n] samples and one
    hook call on a buffer of [n] samples. *)
Inductive one_pass (d : ALCdevice) : list Event -> Prop :=
| pass_empty (n : Z) :
    n <= 0 -> one_pass d [AlcGetIntegerv d n]
| pass_forward (n : Z) (samples : list Z) (ok : bool) :
    0 < n -> Z.of_nat (length samples) = n ->
    one_pass d [AlcGetIntegerv d n; AlcCaptureSamples d n; OnProcessSamples samples n ok].

(** The events of the capture loop on device [d]: iterations, each one
    pass followed by a sleep. *)
Inductive loop_trace (d : ALCdevice) : list Event -> Prop :=
| loop_done : loop_trace d []
| loop_iteration (pass : list Event) (t : Z) (rest : list Event) :
    one_pass d pass -> loop_trace d rest -> loop_trace d (pass ++ Sleep t :: rest).

(** The events of [cleanup] on device [d], given those of its drain pass. *)
Definition cleanup_events (d : ALCdevice) (drain : list Event) : list Event :=
  AlcCaptureStop d :: drain ++ [AlcCaptureCloseDevice d].

Arguments cleanup_events : simpl never.

(** Capability queries, which read the backend and change nothing. *)
Definition is_query (e : Event) : bool :=
  match e with IsExtensionSupported _ _ | AlcGetString _ => true | _ => false end.

(** The open call of a run came back with NULL. *)
Definition open_failed (evs : list Event) : Prop :=
  exists name freq size, In (AlcCaptureOpenDevice name freq size None) evs.

(** ** States of the lifecycle *)

(** What holds of every state the recorder reaches: a raised capturing
    flag means the capture thread runs, and a running capture thread means
    the slot holds its device. *)
Definition lifecycle_invariant {B U : Type} (w : World B U) : Prop :=
  (m_isCapturing w = true -> m_thread w = Running) /\
  (m_thread w = Running -> captureDevice w <> None).

(** The state a [start] refused by [onStart] leaves behind: the slot is
    occupied, yet nothing captures. *)
Definition slot_leaked {B U : Type} (w : World B U) : Prop :=
  captureDevice w <> None /\ m_thread w = NotRunning /\ m_isCapturing w = false.

(** ** Client programs

    What a program does with one recorder: calls of its public member
    functions, in some order, with the capture thread making progress in
    between. *)
Inductive Call : Type :=
| Call_start (sampleRate : Z)
| Call_stop
| Call_setDevice (name : string)
| Call_setProcessingInterval (interval : Z)
| Thread_steps (k : nat).

Section Client.

Context {B U : Type}.
Variable al : Backend B.
Variable impl : Hooks U.

Definition perform (fuel : nat) (c : Call) : M (World B U) unit :=
  match c with
  | Call_start sampleRate => start al impl sampleRate ;; ret tt
  | Call_stop => stop al impl fuel
  | Call_setDevice name => setDevice al impl fuel name ;; ret tt
  | Call_setProcessingInterval interval => setProcessingInterval interval
  | Thread_steps k => thread_run al impl k
  end.

Fixpoint perform_all (fuel : nat) (cs : list Call) : M (World B U) unit :=
  match cs with
  | [] => ret tt
  | c :: cs' => perform fuel c ;; perform_all fuel cs'
  end.

End Client.

(** ** A scripted backend and a probing derived class

    Concrete parties to run the recorder against: an audio library that
    supports the extension under the spellings the script says, opens the
    devices the script lists, and reports the scripted counts on successive
    polls (zero once the script is used up); and a derived class that
    records what it is given. *)
Module Scripted.

Record Script : Type := mkScript {
  ext_CAPTURE : bool;
  ext_capture : bool;
  default_device : string;
  openable : list string;
  polls : list Z
}.

Definition script_isExtensionSupported (ext : string) (s : Script) : bool :=
  if String.eqb ext "ALC_EXT_CAPTURE" then ext_CAPTURE s
  else if String.eqb ext "ALC_EXT_capture" then ext_capture s
  else false.

Definition script_open (name : string) (freq size : Z) (s : Script) : ALCdevice * Script :=
  if existsb (String.eqb name) (openable s) then (Some 1%N, s) else (None, s).

Definition script_poll (d : ALCdevice) (s : Script) : Z * Script :=
  match polls s with
  | [] => (0, s)
  | n :: rest =>
      (n, mkScript (ext_CAPTURE s) (ext_capture s) (default_device s) (openable s) rest)
  end.

Definition script_pull (d : ALCdevice) (n : Z) (s : Script) : list Z * Script :=
  (repeat 7 (Z.to_nat n), s).

Definition script : Backend Script := {|
  isExtensionSupported := script_isExtensionSupported;
  alcGetString := default_device;
  alcCaptureOpenDevice := script_open;
  alcCaptureStart := fun _ s => s;
  alcGetIntegerv := script_poll;
  alcCaptureSamples := script_pull;
  alcCaptureStop := fun _ s => s;
  alcCaptureCloseDevice := fun _ s => s
|}.

(** The derived class: it remembers the counts it was handed and how often
    [onStop] ran; [accept] is what its [onStart] answers and [more] decides
    whether it wants capture to go on after a chunk. *)
Record Probe : Type := mkProbe {
  seen : list Z;
  stops : nat
}.

Definition probe (accept : bool) (more : Z -> bool) : Hooks Probe := {|
  onStart := fun u => (accept, u);
  onProcessSamples := fun _ n u => (more n, mkProbe (seen u ++ [n]) (stops u));
  onStop := fun u => mkProbe (seen u) (S (stops u))
|}.

Definition fresh_probe : Probe := mkProbe [] 0.

(** A derived class that lets capture start and never asks to stop; one
    that refuses to start; one that asks to stop after its first chunk. *)
Definition willing : Hooks Probe := probe true (fun _ => true).
Definition unwilling : Hooks Probe := probe false (fun _ => true).
Definition one_chunk : Hooks Probe := probe true (fun _ => false).

(** A machine with a microphone called "mic", and one whose default
    device cannot be opened. *)
Definition machine (counts : list Z) : Script :=
  mkScript true false "mic" ["mic"] counts.

Definition no_microphone : Script :=
  mkScript true false "mic" [] [].

(** The state before the constructor has run: [captureDevice] is NULL by
    its initialiser. *)
Definition program_start (s : Script) : World Script Probe :=
  mkWorld None NotRunning [] 0 0 false "" s fresh_probe [].

(** The state the constructor leaves. *)
Definition constructed (s : Script) : World Script Probe :=
  mkWorld None NotRunning [] 0 (milliseconds 100) false (default_device s) s fresh_probe
          [AlcGetString (default_device s)].

(** The state a successful [start(44100)] leaves on [machine counts]:
    capturing on handle 1. *)
Definition capturing (counts : list Z) : World Script Probe :=
  mkWorld (Some 1%N) Running [] 44100 (milliseconds 100) true "mic" (machine counts)
          fresh_probe
          [AlcGetString "mic";
           IsExtensionSupported "ALC_EXT_CAPTURE" true;
           AlcCaptureOpenDevice "mic" 44100 44100 (Some 1%N);
           OnStart true;
           AlcCaptureStart (Some 1%N)].

(** A derived class that lets capture start only once it has seen a
    stop. *)
Definition moody : Hooks Probe := {|
  onStart := fun u => (Nat.ltb 0 (stops u), u);
  onProcessSamples := fun _ n u => (true, mkProbe (seen u ++ [n]) (stops u));
  onStop := fun u => mkProbe (seen u) (S (stops u))
|}.

(** The state a [start(44100)] refused by [onStart] leaves on
    [machine counts]: handle 1 in the slot, nothing capturing. *)
Definition refused (counts : list Z) : World Script Probe :=
  mkWorld (Some 1%N) NotRunning [] 44100 (milliseconds 100) false "mic" (machine counts)
          fresh_probe
          [AlcGetString "mic";
           IsExtensionSupported "ALC_EXT_CAPTURE" true;
           AlcCaptureOpenDevice "mic" 44100 44100 (Some 1%N);
           OnStart false].

(** The memory of a device list naming "mic" and "line", with whatever
    follows the list in its buffer. *)
Definition two_devices : list Ascii.ascii :=
  list_ascii_of_string "mic" ++ [Ascii.zero]
    ++ list_ascii_of_string "line" ++ [Ascii.zero; Ascii.zero]
    ++ list_ascii_of_string "rest".

End Scripted.

(** * Properties *)

(** ** Containers and traces *)

Lemma length_resize (v : list Z) (n : Z) : length (resize v n) = Z.to_nat n.
Proof.
  unfold resize. rewrite length_app, length_firstn, repeat_length. lia.
Qed.

Lemma length_store_samples (data v : list Z) :
  length (store_samples data v) = length v.
Proof.
  unfold store_samples.
  rewrite length_firstn, length_app, length_skipn. lia.
Qed.

Lemma size_after_pull (data v : list Z) (n : Z) :
  0 < n -> Z.of_nat (length (store_samples data (resize v n))) = n.
Proof.
  intros Hn. rewrite length_store_samples, length_resize. lia.
Qed.

Lemma new_events_app {B U : Type} (w w' : World B U) (evs : list Event) :
  trace w' = trace w ++ evs -> new_events w w' = evs.
Proof.
  intros H. unfold new_events. rewrite H, skipn_app, skipn_all, Nat.sub_diag.
  reflexivity.
Qed.

Lemma count_app (p : Event -> bool) (l1 l2 : list Event) :
  count p (l1 ++ l2) = (count p l1 + count p l2)%nat.
Proof. unfold count. rewrite filter_app, length_app. reflexivity. Qed.

Lemma count_none (p : Event -> bool) (l : list Event) :
  Forall (fun e => p e = false) l -> count p l = 0%nat.
Proof.
  unfold count. induction 1 as [|e l He _ IH]; simpl; [reflexivity|].
  rewrite He. exact IH.
Qed.

Lemma count_zero_In (p : Event -> bool) (l : list Event) (e : Event) :
  count p l = 0%nat -> In e l -> p e = false.
Proof.
  unfold count. induction l as [|a l IH]; cbn; [tauto|].
  destruct (p a) eqn:Ha; cbn; [discriminate|].
  intros Hl [<- | Hin]; [exact Ha | exact (IH Hl Hin)].
Qed.

Lemma one_pass_loop_events (d : ALCdevice) (evs : list Event) :
  one_pass d evs -> Forall (fun e => loop_event e = true) evs.
Proof. destruct 1; repeat constructor. Qed.

Lemma one_pass_counts (d : ALCdevice) (evs : list Event) :
  one_pass d evs -> hook_counts evs = filter (Z.ltb 0) (poll_counts evs).
Proof.
  destruct 1 as [n Hn | n samples ok Hn _]; simpl.
  - destruct (Z.ltb_spec 0 n); [lia | reflexivity].
  - destruct (Z.ltb_spec 0 n); [reflexivity | lia].
Qed.

Lemma one_pass_at_most_one_hook (d : ALCdevice) (evs : list Event) :
  one_pass d evs -> (count is_onProcessSamples evs <= 1)%nat.
Proof. destruct 1; cbn; lia. Qed.

Lemma loop_trace_loop_events (d : ALCdevice) (evs : list Event) :
  loop_trace d evs -> Forall (fun e => loop_event e = true) evs.
Proof.
  induction 1 as [|pass t rest Hpass _ IH]; [constructor|].
  apply Forall_app. split; [exact (one_pass_loop_events d pass Hpass)|].
  constructor; [reflexivity | exact IH].
Qed.

Lemma loop_trace_counts (d : ALCdevice) (evs : list Event) :
  loop_trace d evs -> hook_counts evs = filter (Z.ltb 0) (poll_counts evs).
Proof.
  induction 1 as [|pass t rest Hpass _ IH]; [reflexivity|].
  unfold hook_counts, poll_counts in *.
  rewrite !flat_map_app, filter_app. cbn [flat_map app].
  rewrite IH. f_equal. exact (one_pass_counts d pass Hpass).
Qed.

Lemma cleanup_events_counts (d : ALCdevice) (drain : list Event) :
  one_pass d drain ->
  hook_counts (cleanup_events d drain)
  = filter (Z.ltb 0) (poll_counts (cleanup_events d drain)).
Proof.
  intros Hpass. unfold cleanup_events, hook_counts, poll_counts in *.
  cbn [flat_map app]. rewrite !flat_map_app. cbn [flat_map app].
  rewrite !app_nil_r. exact (one_pass_counts d drain Hpass).
Qed.

(** No event of the loop is a device-control call or an [onStop]. *)
Lemma count_loop_events (p : Event -> bool) (evs : list Event) :
  (forall e, loop_event e = true -> p e = false) ->
  Forall (fun e => loop_event e = true) evs -> count p evs = 0%nat.
Proof.
  intros Hp Hevs. apply count_none. eapply Forall_impl; [|exact Hevs]. exact Hp.
Qed.

Lemma loop_event_not_stop (e : Event) : loop_event e = true -> is_capture_stop e = false.
Proof. destruct e; cbn; congruence. Qed.

Lemma loop_event_not_close (e : Event) : loop_event e = true -> is_close e = false.
Proof. destruct e; cbn; congruence. Qed.

Lemma loop_event_not_onStop (e : Event) : loop_event e = true -> is_onStop e = false.
Proof. destruct e; cbn; congruence. Qed.

Lemma loop_event_not_open (e : Event) : loop_event e = true -> is_open e = false.
Proof. destruct e; cbn; congruence. Qed.

(** [cleanup] stops once and closes once. *)
Lemma cleanup_events_stop_once (d : ALCdevice) (drain : list Event) :
  one_pass d drain -> count is_capture_stop (cleanup_events d drain) = 1%nat.
Proof.
  intros Hpass. unfold cleanup_events.
  change (AlcCaptureStop d :: drain ++ [AlcCaptureCloseDevice d])
    with ([AlcCaptureStop d] ++ drain ++ [AlcCaptureCloseDevice d]).
  rewrite !count_app.
  rewrite (count_loop_events _ drain loop_event_not_stop (one_pass_loop_events d drain Hpass)).
  reflexivity.
Qed.

Lemma cleanup_events_close_once (d : ALCdevice) (drain : list Event) :
  one_pass d drain -> count is_close (cleanup_events d drain) = 1%nat.
Proof.
  intros Hpass. unfold cleanup_events.
  change (AlcCaptureStop d :: drain ++ [AlcCaptureCloseDevice d])
    with ([AlcCaptureStop d] ++ drain ++ [AlcCaptureCloseDevice d]).
  rewrite !count_app.
  rewrite (count_loop_events _ drain loop_event_not_close (one_pass_loop_events d drain Hpass)).
  reflexivity.
Qed.

Lemma cleanup_events_no_onStop (d : ALCdevice) (drain : list Event) :
  one_pass d drain -> count is_onStop (cleanup_events d drain) = 0%nat.
Proof.
  intros Hpass. unfold cleanup_events.
  change (AlcCaptureStop d :: drain ++ [AlcCaptureCloseDevice d])
    with ([AlcCaptureStop d] ++ drain ++ [AlcCaptureCloseDevice d]).
  rewrite !count_app.
  rewrite (count_loop_events _ drain loop_event_not_onStop (one_pass_loop_events d drain Hpass)).
  reflexivity.
Qed.

(** ** The recorder's functions, step by step *)

Section Facts.

Context {B U : Type}.
Variable al : Backend B.
Variable impl : Hooks U.

Local Abbreviation World := (World B U).

Ltac run :=
  unfold bind, gets, modify, ret, err, sleep, out_of_fuel,
    call_isExtensionSupported, call_alcGetString, call_alcCaptureOpenDevice,
    call_alcCaptureStart, call_alcGetIntegerv, call_alcCaptureSamples,
    call_alcCaptureStop, call_alcCaptureCloseDevice,
    call_onStart, call_onProcessSamples, call_onStop,
    thread_launch, log, set_captureDevice, set_m_thread, set_m_samples,
    set_m_sampleRate, set_m_processingInterval, set_m_isCapturing,
    set_m_deviceName, set_backend, set_user; cbn.

(** A poll that reports nothing to read. *)
Lemma processCapturedSamples_nothing (w : World) (n : Z) (b1 : B) :
  alcGetIntegerv al (captureDevice w) (backend w) = (n, b1) ->
  n <= 0 ->
  processCapturedSamples al impl w =
  Done tt (mkWorld (captureDevice w) (m_thread w) (m_samples w) (m_sampleRate w)
                   (m_processingInterval w) (m_isCapturing w) (m_deviceName w)
                   b1 (user w)
                   (trace w ++ [AlcGetIntegerv (captureDevice w) n])).
Proof.
  intros Hpoll Hn. unfold processCapturedSamples. run. rewrite Hpoll. cbn.
  destruct (Z.ltb_spec 0 n); [lia | reflexivity].
Qed.

(** A poll that reports [n > 0] samples. *)
Lemma processCapturedSamples_forward
  (w : World) (n : Z) (b1 b2 : B) (data : list Z) (ok : bool) (u1 : U) :
  alcGetIntegerv al (captureDevice w) (backend w) = (n, b1) ->
  0 < n ->
  alcCaptureSamples al (captureDevice w) n b1 = (data, b2) ->
  onProcessSamples impl (store_samples data (resize (m_samples w) n)) n (user w) = (ok, u1) ->
  processCapturedSamples al impl w =
  Done tt (mkWorld (captureDevice w) (m_thread w)
                   (store_samples data (resize (m_samples w) n))
                   (m_sampleRate w) (m_processingInterval w)
                   (m_isCapturing w && ok) (m_deviceName w) b2 u1
                   (trace w ++ [AlcGetIntegerv (captureDevice w) n;
                                AlcCaptureSamples (captureDevice w) n;
                                OnProcessSamples
                                  (store_samples data (resize (m_samples w) n)) n ok])).
Proof.
  intros Hpoll Hn Hpull Hhook. unfold processCapturedSamples. run.
  rewrite Hpoll. cbn. destruct (Z.ltb_spec 0 n); [|lia]. cbn.
  rewrite Hpull. cbn. rewrite (size_after_pull _ _ _ Hn), Hhook. cbn.
  rewrite <- !app_assoc. cbn.
  destruct ok; cbn; rewrite ?andb_true_r, ?andb_false_r; reflexivity.
Qed.

(** Every pass returns, adds the events of one pass, can only lower the
    capturing flag, and leaves the configuration alone. *)
Lemma processCapturedSamples_pass (w : World) :
  exists w' evs,
    processCapturedSamples al impl w = Done tt w' /\
    trace w' = trace w ++ evs /\
    one_pass (captureDevice w) evs /\
    same_config w w' /\
    (m_isCapturing w = false -> m_isCapturing w' = false).
Proof.
  destruct (alcGetIntegerv al (captureDevice w) (backend w)) as [n b1] eqn:Hpoll.
  destruct (Z.ltb_spec 0 n) as [Hn | Hn].
  - destruct (alcCaptureSamples al (captureDevice w) n b1) as [data b2] eqn:Hpull.
    destruct (onProcessSamples impl (store_samples data (resize (m_samples w) n)) n (user w))
      as [ok u1] eqn:Hhook.
    eexists. eexists. split.
    + apply (processCapturedSamples_forward w n b1 b2 data ok u1); assumption.
    + cbn. split; [reflexivity|]. split.
      * apply pass_forward; [assumption | apply size_after_pull; assumption].
      * split; [repeat split |]. intros ->. reflexivity.
  - eexists. eexists. split.
    + apply (processCapturedSamples_nothing w n b1); assumption.
    + cbn. split; [reflexivity|]. split; [apply pass_empty; assumption|].
      split; [repeat split | auto].
Qed.

(** [cleanup] returns; it stops the device, makes one pass, closes the
    device and empties the slot, in this order. *)
Lemma cleanup_spec (w : World) :
  exists w' drain,
    cleanup al impl w = Done tt w' /\
    trace w' = trace w ++ cleanup_events (captureDevice w) drain /\
    one_pass (captureDevice w) drain /\
    captureDevice w' = None /\
    m_thread w' = m_thread w /\
    m_sampleRate w' = m_sampleRate w /\
    m_processingInterval w' = m_processingInterval w /\
    m_deviceName w' = m_deviceName w /\
    (m_isCapturing w = false -> m_isCapturing w' = false).
Proof.
  unfold cleanup. run.
  match goal with
  | |- context [processCapturedSamples al impl ?x] =>
      destruct (processCapturedSamples_pass x)
        as (w2 & drain & Hrun & Htr & Hpass & Hcfg & Hflag)
  end.
  rewrite Hrun. cbn in *. destruct Hcfg as (Hd & Ht & Hr & Hi & Hn).
  eexists. exists drain. split; [reflexivity|]. cbn.
  rewrite Htr, Hd. unfold cleanup_events. rewrite <- !app_assoc. cbn.
  repeat split; auto.
Qed.

(** One iteration of the loop returns: one pass, then the sleep. *)
Lemma record_body_spec (w : World) :
  exists w' pass,
    record_body al impl w = Done tt w' /\
    trace w' = trace w ++ pass ++ [Sleep (m_processingInterval w)] /\
    one_pass (captureDevice w) pass /\
    same_config w w' /\
    (m_isCapturing w = false -> m_isCapturing w' = false).
Proof.
  unfold record_body.
  destruct (processCapturedSamples_pass w)
    as (w1 & pass & Hrun & Htr & Hpass & Hcfg & Hflag).
  unfold bind at 1. rewrite Hrun. run.
  eexists. exists pass. split; [reflexivity|]. cbn.
  destruct Hcfg as (Hd & Ht & Hr & Hi & Hn).
  rewrite Htr, Hi, <- app_assoc.
  repeat split; auto.
Qed.

(** With the flag down, [record] is [cleanup], whatever fuel is left. *)
Lemma record_stopped (fuel : nat) (w : World) :
  m_isCapturing w = false -> record al impl (S fuel) w = cleanup al impl w.
Proof. intros H. cbn. unfold bind, gets. rewrite H. reflexivity. Qed.

Lemma thread_wait_not_running (fuel : nat) (w : World) :
  m_thread w = NotRunning -> thread_wait al impl fuel w = Done tt w.
Proof. intros H. unfold thread_wait, bind, gets, ret. rewrite H. reflexivity. Qed.

(** Joining a thread whose flag is down: the cleanup runs and the thread
    is gone. *)
Lemma thread_wait_stopped (fuel : nat) (w : World) :
  (0 < fuel)%nat -> m_thread w = Running -> m_isCapturing w = false ->
  exists w' drain,
    thread_wait al impl fuel w = Done tt w' /\
    trace w' = trace w ++ cleanup_events (captureDevice w) drain /\
    one_pass (captureDevice w) drain /\
    captureDevice w' = None /\
    m_thread w' = NotRunning /\
    m_sampleRate w' = m_sampleRate w /\
    m_processingInterval w' = m_processingInterval w /\
    m_deviceName w' = m_deviceName w /\
    m_isCapturing w' = false.
Proof.
  intros Hfuel Hthread Hflag. destruct fuel as [|fuel]; [lia|].
  destruct (cleanup_spec w) as (w1 & drain & Hrun & Htr & Hpass & Hd & _ & Hr & Hi & Hn & Hf).
  unfold thread_wait, bind at 1, gets at 1. rewrite Hthread.
  unfold bind. rewrite (record_stopped fuel w Hflag), Hrun. run.
  eexists. exists drain. split; [reflexivity|]. cbn. repeat split; auto.
Qed.

Lemma thread_step_not_running (w : World) :
  m_thread w = NotRunning -> thread_step al impl w = Done tt w.
Proof. intros H. unfold thread_step, bind, gets, ret. rewrite H. reflexivity. Qed.

Lemma thread_run_not_running (k : nat) (w : World) :
  m_thread w = NotRunning -> thread_run al impl k w = Done tt w.
Proof.
  intros H. induction k as [|k IH]; [reflexivity|].
  cbn. unfold bind. rewrite (thread_step_not_running w H). exact IH.
Qed.

(** What the capture thread does when left alone for [k] steps: it is
    still in its loop, having made whole iterations; or it has left the
    loop, cleaned up once and ended. *)
Lemma thread_run_spec (k : nat) :
  forall w : World,
    m_thread w = Running ->
    exists w' evs,
      thread_run al impl k w = Done tt w' /\
      trace w' = trace w ++ evs /\
      m_sampleRate w' = m_sampleRate w /\
      m_processingInterval w' = m_processingInterval w /\
      m_deviceName w' = m_deviceName w /\
      ((m_thread w' = Running /\ captureDevice w' = captureDevice w /\
        loop_trace (captureDevice w) evs) \/
       (m_thread w' = NotRunning /\ captureDevice w' = None /\
        m_isCapturing w' = false /\
        exists loop drain,
          evs = loop ++ cleanup_events (captureDevice w) drain /\
          loop_trace (captureDevice w) loop /\
          one_pass (captureDevice w) drain)).
Proof.
  induction k as [|k IH]; intros w Hthread.
  - exists w, []. cbn. rewrite app_nil_r. repeat split; auto.
    left. repeat split; auto. constructor.
  - cbn. unfold bind at 1, thread_step, bind at 1, gets at 1. rewrite Hthread.
    unfold bind at 1, gets at 1.
    destruct (m_isCapturing w) eqn:Hflag.
    + destruct (record_body_spec w) as (w1 & pass & Hrun & Htr & Hpass & Hcfg & _).
      rewrite Hrun. destruct Hcfg as (Hd & Ht & Hr & Hi & Hn).
      destruct (IH w1) as (w' & evs & Hrun' & Htr' & Hr' & Hi' & Hn' & Hcases);
        [congruence|].
      exists w', ((pass ++ [Sleep (m_processingInterval w)]) ++ evs).
      split; [exact Hrun'|].
      split; [rewrite Htr', Htr, <- !app_assoc; reflexivity|].
      split; [congruence|]. split; [congruence|]. split; [congruence|].
      rewrite Hd in Hcases.
      destruct Hcases as [(Ht' & Hd' & Hloop) | (Ht' & Hd' & Hf' & loop & drain & -> & Hloop & Hdrain)].
      * left. split; [assumption|]. split; [congruence|].
        rewrite <- app_assoc. cbn. constructor; assumption.
      * right. split; [assumption|]. split; [assumption|]. split; [assumption|].
        exists (pass ++ Sleep (m_processingInterval w) :: loop), drain.
        split; [rewrite <- !app_assoc; reflexivity|].
        split; [constructor; assumption | assumption].
    + destruct (cleanup_spec w) as (w1 & drain & Hrun & Htr & Hpass & Hd & Ht & Hr & Hi & Hn & Hf).
      unfold bind. rewrite Hrun. run.
      match goal with
      | |- context [thread_run al impl k ?x] =>
          rewrite (thread_run_not_running k x eq_refl)
      end.
      eexists. exists (cleanup_events (captureDevice w) drain).
      split; [reflexivity|]. cbn. repeat split; auto.
      right. repeat split; auto.
      exists [], drain. repeat split; auto. constructor.
Qed.

(** ** [start] *)

(** [isAvailable] returns, having only queried the backend. *)
Lemma isAvailable_run (w : World) :
  exists a evs,
    isAvailable al w = Done a (logs evs w) /\
    Forall (fun e => is_query e = true) evs.
Proof.
  unfold isAvailable. run.
  destruct (isExtensionSupported al "ALC_EXT_CAPTURE" (backend w)) eqn:H1; cbn.
  - exists true. eexists. split; [reflexivity|]. repeat constructor.
  - eexists. eexists. split.
    + unfold logs. cbn. rewrite <- app_assoc. reflexivity.
    + repeat constructor.
Qed.

(** The one path on which [start] returns true, and the four on which it
    returns false, in terms of what the checks along the way answer. *)
Lemma start_cases (w : World) (r : Z) (a : bool) (q : list Event) :
  isAvailable al w = Done a (logs q w) ->
  start al impl r w =
  if negb a then
    Done false (logs (q ++ [Err msg_unavailable]) w)
  else if non_null (captureDevice w) then
    Done false (logs (q ++ [Err msg_busy]) w)
  else
    let '(d, b1) := alcCaptureOpenDevice al (m_deviceName w) r (to_ALCsizei r) (backend w) in
    let opened := AlcCaptureOpenDevice (m_deviceName w) r (to_ALCsizei r) d in
    if negb (non_null d) then
      Done false
        (mkWorld d (m_thread w) (m_samples w) (m_sampleRate w) (m_processingInterval w)
                 (m_isCapturing w) (m_deviceName w) b1 (user w)
                 (trace w ++ q ++ [opened; Err (msg_open_failed (m_deviceName w))]))
    else
      let '(ok, u1) := onStart impl (user w) in
      if ok then
        Done true
          (mkWorld d Running [] r (m_processingInterval w) true (m_deviceName w)
                   (alcCaptureStart al d b1) u1
                   (trace w ++ q ++ [opened; OnStart true; AlcCaptureStart d]))
      else
        Done false
          (mkWorld d (m_thread w) [] r (m_processingInterval w) (m_isCapturing w)
                   (m_deviceName w) b1 u1
                   (trace w ++ q ++ [opened; OnStart false])).
Proof.
  intros Havail. unfold start. unfold bind at 1. rewrite Havail.
  destruct a; cbn.
  2:{ run. unfold logs. rewrite <- app_assoc. reflexivity. }
  run. destruct (captureDevice w) as [h0|]; cbn.
  { unfold logs. rewrite <- app_assoc. reflexivity. }
  destruct (alcCaptureOpenDevice al (m_deviceName w) r (to_ALCsizei r) (backend w))
    as [d b1]. cbn.
  destruct d as [h|]; cbn.
  2:{ rewrite <- !app_assoc. reflexivity. }
  destruct (onStart impl (user w)) as [ok u1]. cbn.
  destruct ok; cbn; rewrite <- !app_assoc; reflexivity.
Qed.

(** C1 (as amended).  For every positive sample rate [r], [start(r)]
    returns, and it returns true if and only if [isAvailable()] is true,
    the slot [captureDevice] is empty at call time, the backend opens the
    device, and the pre-start hook [onStart()] returns true. *)
Theorem start_succeeds_iff (w : World) (r : Z) (Hr : 0 < r < 2 ^ 32) :
  (exists b, eval (start al impl r) w = Some b) /\
  (eval (start al impl r) w = Some true <->
   eval (isAvailable al) w = Some true /\
   captureDevice w = None /\
   fst (alcCaptureOpenDevice al (m_deviceName w) r (to_ALCsizei r) (backend w)) <> None /\
   fst (onStart impl (user w)) = true).
Proof.
  destruct (isAvailable_run w) as (a & q & Ha & _).
  pose proof (start_cases w r a q Ha) as Hs.
  unfold eval. rewrite Ha, Hs. clear Hs Ha.
  destruct a; cbn.
  2:{ split; [eexists; reflexivity|]. split; [discriminate|].
      intros (H & _). discriminate. }
  destruct (captureDevice w) as [h0|]; cbn.
  { split; [eexists; reflexivity|]. split; [discriminate|].
    intros (_ & H & _). discriminate. }
  destruct (alcCaptureOpenDevice al (m_deviceName w) r (to_ALCsizei r) (backend w))
    as [d b1]. cbn.
  destruct d as [h|]; cbn.
  2:{ split; [eexists; reflexivity|]. split; [discriminate|].
      intros (_ & _ & H & _). congruence. }
  destruct (onStart impl (user w)) as [ok u1]. cbn.
  destruct ok; cbn.
  - split; [eexists; reflexivity|]. split; [|reflexivity].
    intros _. repeat split; congruence.
  - split; [eexists; reflexivity|]. split; [discriminate|].
    intros (_ & _ & _ & H). discriminate.
Qed.

(** [start] on the path where every check passes and [onStart] says no. *)
Lemma start_hook_rejects (w : World) (r : Z) (h : N) (b1 : B) (u1 : U) :
  eval (isAvailable al) w = Some true ->
  captureDevice w = None ->
  alcCaptureOpenDevice al (m_deviceName w) r (to_ALCsizei r) (backend w) = (Some h, b1) ->
  onStart impl (user w) = (false, u1) ->
  exists q,
    Forall (fun e => is_query e = true) q /\
    start al impl r w =
    Done false
      (mkWorld (Some h) (m_thread w) [] r (m_processingInterval w) (m_isCapturing w)
               (m_deviceName w) b1 u1
               (trace w ++ q ++ [AlcCaptureOpenDevice (m_deviceName w) r (to_ALCsizei r) (Some h);
                                 OnStart false])).
Proof.
  intros Havail Hslot Hopen Hhook.
  destruct (isAvailable_run w) as (a & q & Ha & Hq).
  unfold eval in Havail. rewrite Ha in Havail. injection Havail as ->.
  exists q. split; [exact Hq|].
  rewrite (start_cases w r true q Ha). cbn.
  rewrite Hslot, Hopen. cbn. rewrite Hhook. reflexivity.
Qed.

(** C2.  If [start(r)] passes the availability check, the slot check and
    the backend open, but [onStart()] returns false, then [start] returns
    false with the device still open: the slot holds the handle the open
    returned, no close (and no other backend call) was issued after the
    open, and neither the thread nor the capturing flag was touched. *)
Theorem start_hook_rejects_device_stays_open
  (w : World) (r : Z) (h : N) (b1 : B) (u1 : U)
  (Havail : eval (isAvailable al) w = Some true)
  (Hslot : captureDevice w = None)
  (Hopen : alcCaptureOpenDevice al (m_deviceName w) r (to_ALCsizei r) (backend w)
           = (Some h, b1))
  (Hhook : onStart impl (user w) = (false, u1)) :
  exists w',
    start al impl r w = Done false w' /\
    captureDevice w' = Some h /\
    backend w' = b1 /\
    count is_close (new_events w w') = 0%nat /\
    (exists q, Forall (fun e => is_query e = true) q /\
               new_events w w' =
               q ++ [AlcCaptureOpenDevice (m_deviceName w) r (to_ALCsizei r) (Some h);
                     OnStart false]) /\
    m_thread w' = m_thread w /\
    m_isCapturing w' = m_isCapturing w.
Proof.
  destruct (start_hook_rejects w r h b1 u1 Havail Hslot Hopen Hhook) as (q & Hq & Hrun).
  eexists. split; [exact Hrun|]. cbn.
  split; [reflexivity|]. split; [reflexivity|].
  erewrite new_events_app by (cbn; reflexivity).
  split.
  - rewrite count_app. rewrite count_none; [reflexivity|].
    eapply Forall_impl; [|exact Hq]. intros e He. destruct e; cbn in *; congruence.
  - split; [exists q; auto | auto].
Qed.

(** C9.  When [start(r)] fails because [onStart()] returns false, the
    stored sample rate is already [r] and the sample buffer is already
    empty, so [getSampleRate()] then returns [r]. *)
Theorem start_hook_rejects_rate_stored
  (w : World) (r : Z) (h : N) (b1 : B) (u1 : U)
  (Havail : eval (isAvailable al) w = Some true)
  (Hslot : captureDevice w = None)
  (Hopen : alcCaptureOpenDevice al (m_deviceName w) r (to_ALCsizei r) (backend w)
           = (Some h, b1))
  (Hhook : onStart impl (user w) = (false, u1)) :
  exists w',
    start al impl r w = Done false w' /\
    m_sampleRate w' = r /\
    m_samples w' = [] /\
    eval getSampleRate w' = Some r.
Proof.
  destruct (start_hook_rejects w r h b1 u1 Havail Hslot Hopen Hhook) as (q & _ & Hrun).
  eexists. split; [exact Hrun|]. cbn. auto.
Qed.

(** ** [stop] and the end of a session *)

(** [stop] with fuel for one test of the loop condition: it returns, the
    flag is down and the thread gone; a running thread has cleaned up
    before [onStop] is called; with no thread running only [onStop]
    happens. *)
Lemma stop_spec (w : World) (fuel : nat) :
  (0 < fuel)%nat ->
  exists w',
    stop al impl fuel w = Done tt w' /\
    m_isCapturing w' = false /\
    m_thread w' = NotRunning /\
    m_sampleRate w' = m_sampleRate w /\
    m_deviceName w' = m_deviceName w /\
    (m_thread w = Running ->
     captureDevice w' = None /\
     exists drain,
       one_pass (captureDevice w) drain /\
       trace w' = trace w ++ cleanup_events (captureDevice w) drain ++ [OnStop]) /\
    (m_thread w = NotRunning ->
     w' = log OnStop (set_user (onStop impl (user w)) (set_m_isCapturing false w))).
Proof.
  intros Hfuel. unfold stop. unfold bind at 1, modify at 1.
  destruct (m_thread w) eqn:Hthread.
  - unfold bind at 1.
    rewrite (thread_wait_not_running fuel (set_m_isCapturing false w) Hthread).
    run. eexists. split; [reflexivity|]. cbn.
    repeat split; auto; discriminate.
  - destruct (thread_wait_stopped fuel (set_m_isCapturing false w) Hfuel Hthread eq_refl)
      as (w1 & drain & Hrun & Htr & Hpass & Hd & Ht & Hr & Hi & Hn & Hf).
    unfold bind at 1. rewrite Hrun. run.
    eexists. split; [reflexivity|]. cbn in *.
    repeat split; auto; try discriminate.
    exists drain. split; [exact Hpass|]. rewrite Htr, <- app_assoc. reflexivity.
Qed.

(** C3.  For every started session (the capture thread is running), for
    any number [k] of steps the thread is left to make before [stop()] is
    called, the session returns and its events are: the iterations of the
    loop, then stop backend capture, then exactly one more
    poll-and-forward pass, then close the backend device, and last
    [onStop].  The slot is empty afterwards, the flag is down whatever the
    hook answered in the drain, and backend capture was stopped exactly
    once and the device closed exactly once, whether the loop ended because
    of [stop()] or because the hook asked for it. *)
Theorem cleanup_once_per_session
  (w : World) (k fuel : nat)
  (Hstarted : m_thread w = Running) (Hfuel : (0 < fuel)%nat) :
  exists w' loop drain,
    (thread_run al impl k ;; stop al impl fuel) w = Done tt w' /\
    new_events w w' =
      loop ++ [AlcCaptureStop (captureDevice w)] ++ drain
           ++ [AlcCaptureCloseDevice (captureDevice w); OnStop] /\
    loop_trace (captureDevice w) loop /\
    one_pass (captureDevice w) drain /\
    captureDevice w' = None /\
    m_isCapturing w' = false /\
    m_thread w' = NotRunning /\
    count is_capture_stop (new_events w w') = 1%nat /\
    count is_close (new_events w w') = 1%nat.
Proof.
  destruct (thread_run_spec k w Hstarted)
    as (w1 & evs & Hrun & Htr & _ & _ & _ & Hcases).
  destruct (stop_spec w1 fuel Hfuel)
    as (w' & Hstop & Hflag & Hthread & _ & _ & Hjoined & Hidle).
  assert (Hshape : exists loop drain,
             trace w' = trace w ++ loop ++ cleanup_events (captureDevice w) drain ++ [OnStop] /\
             loop_trace (captureDevice w) loop /\
             one_pass (captureDevice w) drain /\
             captureDevice w' = None).
  { destruct Hcases as [(Ht1 & Hd1 & Hloop) | (Ht1 & Hd1 & Hf1 & loop & drain & -> & Hloop & Hdrain)].
    - destruct (Hjoined Ht1) as (Hd' & drain & Hdrain & Htr').
      exists evs, drain. rewrite Hd1 in *.
      split; [rewrite Htr', Htr, <- app_assoc; reflexivity|]. auto.
    - exists loop, drain. rewrite (Hidle Ht1). cbn.
      split; [rewrite Htr, <- !app_assoc; reflexivity|]. auto. }
  destruct Hshape as (loop & drain & Htr' & Hloop & Hdrain & Hd').
  exists w', loop, drain.
  rewrite (new_events_app w w' _ Htr').
  split; [unfold bind; rewrite Hrun; exact Hstop|].
  split; [unfold cleanup_events; cbn; rewrite <- app_assoc; reflexivity|].
  repeat (split; [assumption|]).
  pose proof (loop_trace_loop_events _ _ Hloop) as Hevs.
  rewrite !count_app.
  rewrite (count_loop_events _ loop loop_event_not_stop Hevs).
  rewrite (count_loop_events _ loop loop_event_not_close Hevs).
  rewrite (cleanup_events_stop_once _ _ Hdrain), (cleanup_events_close_once _ _ Hdrain).
  split; reflexivity.
Qed.

(** ** Polling and forwarding *)

(** Left alone for [k] steps, the thread returns, and the counts the hook
    was called with are the positive counts the backend reported, in
    order. *)
Lemma thread_run_counts (k : nat) (w : World) :
  exists w',
    thread_run al impl k w = Done tt w' /\
    exists evs,
      trace w' = trace w ++ evs /\
      hook_counts evs = filter (Z.ltb 0) (poll_counts evs).
Proof.
  destruct (m_thread w) eqn:Hthread.
  - exists w. split; [exact (thread_run_not_running k w Hthread)|].
    exists []. rewrite app_nil_r. split; reflexivity.
  - destruct (thread_run_spec k w Hthread)
      as (w' & evs & Hrun & Htr & _ & _ & _ & Hcases).
    exists w'. split; [exact Hrun|]. exists evs. split; [exact Htr|].
    destruct Hcases as [(_ & _ & Hloop) | (_ & _ & _ & loop & drain & -> & Hloop & Hdrain)].
    + exact (loop_trace_counts _ _ Hloop).
    + unfold hook_counts, poll_counts. rewrite !flat_map_app, filter_app.
      f_equal.
      * exact (loop_trace_counts _ _ Hloop).
      * exact (cleanup_events_counts _ _ Hdrain).
Qed.

(** C4.  On a poll, let [n] be the count the backend reports.  If
    [n > 0], the sample buffer ends up with exactly [n] samples, exactly
    [n] samples are pulled, and [onProcessSamples] is called once, on that
    buffer with count [n].  If [n] is not positive there is no pull and no
    hook call, and the buffer is left as it was.  Hence over any number of
    steps of the capture thread the hook is called with the positive
    counts reported, in order; in particular polls reporting
    [100; 50; 0] give hook calls with counts [100; 50]. *)
Theorem poll_and_forward
  (w : World) (k : nat) (n : Z) (b1 : B)
  (Hpoll : alcGetIntegerv al (captureDevice w) (backend w) = (n, b1)) :
  (exists w1,
     processCapturedSamples al impl w = Done tt w1 /\
     (0 < n ->
      length (m_samples w1) = Z.to_nat n /\
      exists ok,
        new_events w w1 =
          [AlcGetIntegerv (captureDevice w) n;
           AlcCaptureSamples (captureDevice w) n;
           OnProcessSamples (m_samples w1) n ok]) /\
     (n <= 0 ->
      new_events w w1 = [AlcGetIntegerv (captureDevice w) n] /\
      m_samples w1 = m_samples w /\
      user w1 = user w)) /\
  (exists w',
     thread_run al impl k w = Done tt w' /\
     hook_counts (new_events w w') = filter (Z.ltb 0) (poll_counts (new_events w w')) /\
     (poll_counts (new_events w w') = [100; 50; 0] ->
      hook_counts (new_events w w') = [100; 50])).
Proof.
  split.
  - destruct (Z.ltb_spec 0 n) as [Hn | Hn].
    + destruct (alcCaptureSamples al (captureDevice w) n b1) as [data b2] eqn:Hpull.
      destruct (onProcessSamples impl (store_samples data (resize (m_samples w) n)) n (user w))
        as [ok u1] eqn:Hhook.
      eexists. split.
      * apply (processCapturedSamples_forward w n b1 b2 data ok u1); assumption.
      * cbn. split; [|lia]. intros _.
        split; [rewrite length_store_samples, length_resize; reflexivity|].
        exists ok. erewrite new_events_app by (cbn; reflexivity). reflexivity.
    + eexists. split.
      * apply (processCapturedSamples_nothing w n b1); assumption.
      * cbn. split; [lia|]. intros _.
        erewrite new_events_app by (cbn; reflexivity). auto.
  - destruct (thread_run_counts k w) as (w' & Hrun & evs & Htr & Hcounts).
    exists w'. rewrite (new_events_app w w' evs Htr).
    split; [exact Hrun|]. split; [exact Hcounts|].
    intros Hpolls. rewrite Hcounts, Hpolls. reflexivity.
Qed.

(** C7.  If, in an iteration of the loop, [onProcessSamples] returns
    false, then the flag is down after the hook call, the iteration still
    ends with its sleep, and what the thread does from there is the
    cleanup: the loop is not entered again, and the only hook call that
    can follow is the one of the drain pass. *)
Theorem hook_requests_stop
  (w : World) (fuel : nat) (n : Z) (b1 b2 : B) (data : list Z) (u1 : U)
  (Hflag : m_isCapturing w = true)
  (Hpoll : alcGetIntegerv al (captureDevice w) (backend w) = (n, b1))
  (Hn : 0 < n)
  (Hpull : alcCaptureSamples al (captureDevice w) n b1 = (data, b2))
  (Hhook : onProcessSamples impl (store_samples data (resize (m_samples w) n)) n (user w)
           = (false, u1)) :
  let d := captureDevice w in
  let iteration :=
    [AlcGetIntegerv d n; AlcCaptureSamples d n;
     OnProcessSamples (store_samples data (resize (m_samples w) n)) n false;
     Sleep (m_processingInterval w)] in
  (exists w1,
     record_body al impl w = Done tt w1 /\
     m_isCapturing w1 = false /\
     new_events w w1 = iteration) /\
  (exists w' drain,
     record al impl (S (S fuel)) w = Done tt w' /\
     new_events w w' = iteration ++ [AlcCaptureStop d] ++ drain ++ [AlcCaptureCloseDevice d] /\
     one_pass d drain /\
     (count is_onProcessSamples drain <= 1)%nat /\
     captureDevice w' = None /\
     m_isCapturing w' = false).
Proof.
  intros d iteration.
  pose proof (processCapturedSamples_forward w n b1 b2 data false u1 Hpoll Hn Hpull Hhook)
    as Hpass.
  assert (Hbody : exists w1,
             record_body al impl w = Done tt w1 /\
             m_isCapturing w1 = false /\
             captureDevice w1 = d /\
             trace w1 = trace w ++ iteration).
  { unfold record_body. unfold bind at 1. rewrite Hpass. run.
    eexists. split; [reflexivity|]. cbn. rewrite <- app_assoc.
    rewrite andb_false_r. auto. }
  destruct Hbody as (w1 & Hrun1 & Hflag1 & Hd1 & Htr1).
  split.
  - exists w1. rewrite (new_events_app w w1 _ Htr1). auto.
  - destruct (cleanup_spec w1) as (w' & drain & Hrun & Htr & Hdrain & Hd & _ & _ & _ & _ & Hf).
    exists w', drain. rewrite Hd1 in *.
    split.
    + change (record al impl (S (S fuel)) w)
        with ((c <- gets m_isCapturing ;;
               if c then record_body al impl ;; record al impl (S fuel)
               else cleanup al impl) w).
      unfold bind at 1, gets at 1. rewrite Hflag.
      unfold bind at 1. rewrite Hrun1.
      rewrite (record_stopped fuel w1 Hflag1). exact Hrun.
    + erewrite new_events_app
        by (rewrite Htr, Htr1, <- app_assoc; unfold cleanup_events; reflexivity).
      split; [reflexivity|]. split; [exact Hdrain|].
      split; [exact (one_pass_at_most_one_hook _ _ Hdrain)|].
      split; [exact Hd | exact (Hf Hflag1)].
Qed.

(** ** [setDevice] *)

Lemma cleanup_events_no_open (d : ALCdevice) (drain : list Event) :
  one_pass d drain -> count is_open (cleanup_events d drain) = 0%nat.
Proof.
  intros Hpass. unfold cleanup_events.
  change (AlcCaptureStop d :: drain ++ [AlcCaptureCloseDevice d])
    with ([AlcCaptureStop d] ++ drain ++ [AlcCaptureCloseDevice d]).
  rewrite !count_app.
  rewrite (count_loop_events _ drain loop_event_not_open (one_pass_loop_events d drain Hpass)).
  reflexivity.
Qed.

(** Joining with the flag down always returns; what it adds to the trace
    holds no open and no [onStop]. *)
Lemma thread_wait_flag_down (fuel : nat) (w : World) :
  (0 < fuel)%nat -> m_isCapturing w = false ->
  exists w1 joined,
    thread_wait al impl fuel w = Done tt w1 /\
    trace w1 = trace w ++ joined /\
    count is_open joined = 0%nat /\
    count is_onStop joined = 0%nat /\
    m_thread w1 = NotRunning /\
    m_isCapturing w1 = false /\
    m_sampleRate w1 = m_sampleRate w /\
    m_deviceName w1 = m_deviceName w /\
    (m_thread w = Running -> captureDevice w1 = None).
Proof.
  intros Hfuel Hflag. destruct (m_thread w) eqn:Hthread.
  - exists w, []. rewrite app_nil_r.
    split; [exact (thread_wait_not_running fuel w Hthread)|].
    repeat split; auto. discriminate.
  - destruct (thread_wait_stopped fuel w Hfuel Hthread Hflag)
      as (w1 & drain & Hrun & Htr & Hpass & Hd & Ht & Hr & Hi & Hn & Hf).
    exists w1, (cleanup_events (captureDevice w) drain).
    split; [exact Hrun|]. split; [exact Htr|].
    split; [exact (cleanup_events_no_open _ _ Hpass)|].
    split; [exact (cleanup_events_no_onStop _ _ Hpass)|].
    repeat split; auto.
Qed.

(** [setDevice] while capturing: up to the reopen, and the two ways on
    from there. *)
Lemma setDevice_capturing (w : World) (name : string) (fuel : nat) :
  (0 < fuel)%nat -> m_isCapturing w = true ->
  exists w1 pre,
    trace w1 = trace w ++ pre /\
    count is_open pre = 0%nat /\
    count is_onStop pre = 0%nat /\
    m_sampleRate w1 = m_sampleRate w /\
    setDevice al impl fuel name w =
    let rate := m_sampleRate w in
    let '(d, b1) := alcCaptureOpenDevice al name rate (to_ALCsizei rate) (backend w1) in
    if non_null d then
      Done true
        (mkWorld d Running (m_samples w1) rate (m_processingInterval w1) true
                 (m_deviceName w1) (alcCaptureStart al d b1) (user w1)
                 (trace w1 ++ [AlcCaptureOpenDevice name rate (to_ALCsizei rate) d;
                               AlcCaptureStart d]))
    else
      Done false
        (mkWorld d NotRunning (m_samples w1) rate (m_processingInterval w1) false
                 (m_deviceName w1) b1 (onStop impl (user w1))
                 (trace w1 ++ [AlcCaptureOpenDevice name rate (to_ALCsizei rate) d;
                               OnStop;
                               Err (msg_open_failed (m_deviceName w1))])).
Proof.
  intros Hfuel Hcap.
  assert (Hstore : exists w0 q,
             setDevice al impl fuel name w =
             (thread_wait al impl fuel ;;
              rate <- gets m_sampleRate ;;
              dev <- call_alcCaptureOpenDevice al name rate (to_ALCsizei rate) ;;
              modify (set_captureDevice dev) ;;
              if negb (non_null dev) then
                call_onStop impl ;;
                stored <- gets m_deviceName ;;
                err (msg_open_failed stored) ;;
                ret false
              else
                dev <- gets captureDevice ;;
                call_alcCaptureStart al dev ;;
                modify (set_m_isCapturing true) ;;
                thread_launch ;;
                ret true) w0 /\
             trace w0 = trace w ++ q /\
             count is_open q = 0%nat /\ count is_onStop q = 0%nat /\
             m_isCapturing w0 = false /\
             m_sampleRate w0 = m_sampleRate w).
  { unfold setDevice. destruct (empty name).
    - eexists. exists [AlcGetString (alcGetString al (backend w))].
      split.
      + unfold getDefaultDevice, call_alcGetString.
        unfold bind at 1, bind at 1, modify at 1, bind at 1, gets at 1.
        cbn [m_isCapturing set_m_deviceName log]. rewrite Hcap.
        unfold bind at 1, modify at 1. reflexivity.
      + cbn. auto.
    - eexists. exists [].
      split.
      + unfold bind at 1, modify at 1, bind at 1, gets at 1.
        cbn [m_isCapturing set_m_deviceName]. rewrite Hcap.
        unfold bind at 1, modify at 1. reflexivity.
      + cbn. rewrite app_nil_r. auto. }
  destruct Hstore as (w0 & q & -> & Htr0 & Hq1 & Hq2 & Hflag0 & Hr0).
  destruct (thread_wait_flag_down fuel w0 Hfuel Hflag0)
    as (w1 & joined & Hrun & Htr1 & Hj1 & Hj2 & Ht1 & Hf1 & Hr1 & Hn1 & _).
  exists w1, (q ++ joined).
  split; [rewrite Htr1, Htr0, <- app_assoc; reflexivity|].
  split; [rewrite count_app, Hq1, Hj1; reflexivity|].
  split; [rewrite count_app, Hq2, Hj2; reflexivity|].
  split; [congruence|].
  unfold bind at 1. rewrite Hrun. run. rewrite Hr1, Hr0.
  destruct (alcCaptureOpenDevice al name (m_sampleRate w) (to_ALCsizei (m_sampleRate w))
              (backend w1)) as [d b1].
  cbn. destruct d as [h|]; cbn; rewrite <- !app_assoc, ?Ht1, ?Hf1; reflexivity.
Qed.

(** [setDevice] while capturing returns, and when its open came back with
    NULL it has returned false, with the recorder idle, the slot empty and
    [onStop] called once. *)
Lemma setDevice_reopen_failed (w : World) (name : string) (fuel : nat) :
  (0 < fuel)%nat -> m_isCapturing w = true ->
  exists b w',
    setDevice al impl fuel name w = Done b w' /\
    (open_failed (new_events w w') ->
     b = false /\
     m_isCapturing w' = false /\
     m_thread w' = NotRunning /\
     captureDevice w' = None /\
     count is_onStop (new_events w w') = 1%nat).
Proof.
  intros Hfuel Hcap.
  destruct (setDevice_capturing w name fuel Hfuel Hcap)
    as (w1 & pre & Htr & Hopen & Hstop & Hr & Hrun).
  rewrite Hrun. clear Hrun. cbn zeta.
  destruct (alcCaptureOpenDevice al name (m_sampleRate w) (to_ALCsizei (m_sampleRate w))
              (backend w1)) as [d b1].
  destruct d as [h|]; cbn [non_null].
  - eexists. eexists. split; [reflexivity|].
    erewrite new_events_app by (cbn [trace]; rewrite Htr, <- app_assoc; reflexivity).
    intros (nm & f & sz & Hin). exfalso.
    apply in_app_or in Hin. destruct Hin as [Hin | Hin].
    + pose proof (count_zero_In is_open pre _ Hopen Hin). discriminate.
    + cbn in Hin. destruct Hin as [H | [H | []]]; discriminate.
  - eexists. eexists. split; [reflexivity|].
    erewrite new_events_app by (cbn [trace]; rewrite Htr, <- app_assoc; reflexivity).
    intros _. cbn. repeat split; auto.
    rewrite count_app, Hstop. reflexivity.
Qed.

(** C5.  If [setDevice(name)] is called while capturing and the backend
    reopen fails, then [setDevice] returns false, the recorder is idle
    (the capturing flag is down and no capture thread is running), and
    [onStop] has been called exactly once. *)
Theorem setDevice_reopen_failure
  (w : World) (name : string) (fuel : nat)
  (Hfuel : (0 < fuel)%nat) (Hcapturing : m_isCapturing w = true) :
  exists b w',
    setDevice al impl fuel name w = Done b w' /\
    (open_failed (new_events w w') ->
     b = false /\
     m_isCapturing w' = false /\
     m_thread w' = NotRunning /\
     count is_onStop (new_events w w') = 1%nat).
Proof.
  destruct (setDevice_reopen_failed w name fuel Hfuel Hcapturing) as (b & w' & Hrun & H).
  exists b, w'. split; [exact Hrun|]. intros Hfail.
  destruct (H Hfail) as (Hb & Hf & Ht & _ & Hc). auto.
Qed.

(** With the slot empty, [start] returns without the "another capture is
    already running" diagnostic. *)
Lemma start_slot_free_not_busy (w : World) (r : Z) :
  captureDevice w = None ->
  exists b w',
    start al impl r w = Done b w' /\
    ~ In (Err msg_busy) (new_events w w').
Proof.
  intros Hslot.
  destruct (isAvailable_run w) as (a & q & Ha & Hq).
  rewrite (start_cases w r a q Ha), Hslot.
  assert (Hquery : ~ In (Err msg_busy) q).
  { intros Hin. rewrite Forall_forall in Hq. specialize (Hq _ Hin). discriminate. }
  destruct a; cbn [negb non_null].
  - destruct (alcCaptureOpenDevice al (m_deviceName w) r (to_ALCsizei r) (backend w))
      as [d b1].
    cbn zeta. destruct d as [h|]; cbn [negb non_null].
    + destruct (onStart impl (user w)) as [ok u1].
      destruct ok; eexists; eexists; (split; [reflexivity|]);
        erewrite new_events_app by (cbn [trace]; reflexivity);
        intros Hin; apply in_app_or in Hin; destruct Hin as [Hin | Hin];
        try (exact (Hquery Hin)); cbn in Hin; intuition discriminate.
    + eexists. eexists. split; [reflexivity|].
      erewrite new_events_app by (cbn [trace]; reflexivity).
      intros Hin. apply in_app_or in Hin. destruct Hin as [Hin | Hin];
        [exact (Hquery Hin)|].
      cbn in Hin. intuition discriminate.
  - eexists. eexists. split; [reflexivity|].
    erewrite new_events_app by (cbn [trace logs]; reflexivity).
    intros Hin. apply in_app_or in Hin. destruct Hin as [Hin | Hin];
      [exact (Hquery Hin)|].
    cbn in Hin. intuition discriminate.
Qed.

(** C10.  After [setDevice(name)], called while capturing, has returned
    false because the backend reopen failed, the slot [captureDevice] is
    empty, so that a following [start()], at any rate, does not fail with
    the slot-occupied diagnostic. *)
Theorem setDevice_reopen_failure_frees_slot
  (w : World) (name : string) (fuel : nat)
  (Hfuel : (0 < fuel)%nat) (Hcapturing : m_isCapturing w = true) :
  exists b w',
    setDevice al impl fuel name w = Done b w' /\
    (open_failed (new_events w w') ->
     b = false /\
     captureDevice w' = None /\
     forall r, exists b' w'',
       start al impl r w' = Done b' w'' /\
       ~ In (Err msg_busy) (new_events w' w'')).
Proof.
  destruct (setDevice_reopen_failed w name fuel Hfuel Hcapturing) as (b & w' & Hrun & H).
  exists b, w'. split; [exact Hrun|]. intros Hfail.
  destruct (H Hfail) as (Hb & _ & _ & Hslot & _).
  split; [exact Hb|]. split; [exact Hslot|].
  intros r. exact (start_slot_free_not_busy w' r Hslot).
Qed.

(** C8.  For every name, [setDevice(name)] called while idle returns
    true and changes nothing but the stored device name, an empty name
    being stored as the backend's default device (the one backend call
    made is then that query): no backend open, close, start-capture or
    stop-capture call is issued. *)
Theorem setDevice_idle_only_stores_name
  (w : World) (name : string) (fuel : nat)
  (Hidle : m_isCapturing w = false) :
  exists w',
    setDevice al impl fuel name w = Done true w' /\
    (empty name = false -> w' = set_m_deviceName name w) /\
    (empty name = true ->
     w' = set_m_deviceName (alcGetString al (backend w))
            (log (AlcGetString (alcGetString al (backend w))) w)) /\
    count is_open (new_events w w') = 0%nat /\
    count is_close (new_events w w') = 0%nat /\
    count is_capture_start (new_events w w') = 0%nat /\
    count is_capture_stop (new_events w w') = 0%nat.
Proof.
  unfold setDevice. destruct (empty name).
  - unfold getDefaultDevice. run. rewrite Hidle.
    eexists. split; [reflexivity|].
    split; [discriminate|]. split; [reflexivity|].
    erewrite new_events_app by (cbn [trace]; reflexivity).
    repeat split.
  - run. rewrite Hidle.
    eexists. split; [reflexivity|].
    split; [reflexivity|]. split; [discriminate|].
    erewrite new_events_app by (cbn [trace]; rewrite app_nil_r; reflexivity).
    repeat split.
Qed.

(** C6 (as amended).  [stop()] lowers the capturing flag and joins the
    capture thread, whose cleanup (stop capture, drain pass, close) is
    complete before [onStop] is called; afterwards the flag is down and no
    thread is running.  Called when the recorder is already idle, [stop()]
    issues no backend call and changes no field of the recorder, but it
    does call [onStop] once more. *)
Theorem stop_joins_then_notifies
  (w : World) (fuel : nat) (Hfuel : (0 < fuel)%nat) :
  exists w',
    stop al impl fuel w = Done tt w' /\
    m_isCapturing w' = false /\
    m_thread w' = NotRunning /\
    (m_thread w = Running ->
     captureDevice w' = None /\
     exists drain,
       one_pass (captureDevice w) drain /\
       new_events w w' =
         [AlcCaptureStop (captureDevice w)] ++ drain
           ++ [AlcCaptureCloseDevice (captureDevice w); OnStop]) /\
    (m_thread w = NotRunning -> m_isCapturing w = false ->
     w' = log OnStop (set_user (onStop impl (user w)) w) /\
     new_events w w' = [OnStop]).
Proof.
  destruct (stop_spec w fuel Hfuel)
    as (w' & Hrun & Hflag & Hthread & _ & _ & Hjoined & Hidle).
  exists w'. split; [exact Hrun|]. split; [exact Hflag|]. split; [exact Hthread|].
  split.
  - intros Ht. destruct (Hjoined Ht) as (Hd & drain & Hpass & Htr).
    split; [exact Hd|]. exists drain. split; [exact Hpass|].
    rewrite (new_events_app w w' _ Htr). unfold cleanup_events. cbn.
    rewrite <- app_assoc. reflexivity.
  - intros Ht Hf. rewrite (Hidle Ht).
    assert (Hsame : set_m_isCapturing false w = w).
    { destruct w. cbn in Hf. subst. reflexivity. }
    rewrite Hsame. split; [reflexivity|].
    apply new_events_app. reflexivity.
Qed.

(** ** More on [start] *)

(** What a [start] that returned true went through, and the state it
    left. *)
Lemma start_returns_true (w w1 : World) (r : Z) :
  start al impl r w = Done true w1 ->
  exists h q b1 u1,
    Forall (fun e => is_query e = true) q /\
    captureDevice w = None /\
    alcCaptureOpenDevice al (m_deviceName w) r (to_ALCsizei r) (backend w) = (Some h, b1) /\
    onStart impl (user w) = (true, u1) /\
    w1 = mkWorld (Some h) Running [] r (m_processingInterval w) true (m_deviceName w)
                 (alcCaptureStart al (Some h) b1) u1
                 (trace w ++ q ++ [AlcCaptureOpenDevice (m_deviceName w) r (to_ALCsizei r) (Some h);
                                   OnStart true; AlcCaptureStart (Some h)]).
Proof.
  destruct (isAvailable_run w) as (a & q & Ha & Hq).
  rewrite (start_cases w r a q Ha).
  destruct a; cbn [negb]; [|discriminate].
  destruct (captureDevice w) as [h0|] eqn:Hslot; cbn [non_null]; [discriminate|].
  destruct (alcCaptureOpenDevice al (m_deviceName w) r (to_ALCsizei r) (backend w))
    as [d b1] eqn:Hopen.
  cbn zeta. destruct d as [h|]; cbn [negb non_null]; [|discriminate].
  destruct (onStart impl (user w)) as [ok u1] eqn:Hhook.
  destruct ok; [|discriminate].
  intros H. injection H as <-.
  exists h, q, b1, u1. auto.
Qed.

Lemma count_queries (p : Event -> bool) (q : list Event) :
  (forall e, is_query e = true -> p e = false) ->
  Forall (fun e => is_query e = true) q -> count p q = 0%nat.
Proof.
  intros Hp Hq. apply count_none. eapply Forall_impl; [|exact Hq]. exact Hp.
Qed.

Lemma query_not_open (e : Event) : is_query e = true -> is_open e = false.
Proof. destruct e; cbn; congruence. Qed.

Lemma query_not_close (e : Event) : is_query e = true -> is_close e = false.
Proof. destruct e; cbn; congruence. Qed.

Lemma query_not_onStart (e : Event) : is_query e = true -> is_onStart e = false.
Proof. destruct e; cbn; congruence. Qed.

Lemma query_not_onStop (e : Event) : is_query e = true -> is_onStop e = false.
Proof. destruct e; cbn; congruence. Qed.

(** X1.  A [start] that returns true leaves the recorder capturing: the
    flag is up, the capture thread runs, the slot holds the handle the
    open returned, the buffer is empty, the rate is stored and the device
    name is the one configured.  The device is opened first, [onStart] is
    called next, and capture is started on the backend last. *)
Theorem start_success_state
  (w w1 : World) (r : Z)
  (Hstart : start al impl r w = Done true w1) :
  m_isCapturing w1 = true /\
  m_thread w1 = Running /\
  m_samples w1 = [] /\
  m_sampleRate w1 = r /\
  m_deviceName w1 = m_deviceName w /\
  exists h q,
    captureDevice w1 = Some h /\
    Forall (fun e => is_query e = true) q /\
    new_events w w1 =
      q ++ [AlcCaptureOpenDevice (m_deviceName w) r (to_ALCsizei r) (Some h);
            OnStart true; AlcCaptureStart (Some h)].
Proof.
  destruct (start_returns_true w w1 r Hstart) as (h & q & b1 & u1 & Hq & _ & _ & _ & ->).
  cbn. repeat (split; [reflexivity|]).
  exists h, q. split; [reflexivity|]. split; [exact Hq|].
  apply new_events_app. reflexivity.
Qed.

(** X2.  A [start] refused because capture is unavailable or because the
    slot is occupied returns false and touches nothing: every field, the
    slot, the backend state and the state of the derived class are as
    before, no device is opened and [onStart] is not called.  Only the
    capability queries and the diagnostic are added to the trace; with
    capture available the diagnostic is the slot-occupied one. *)
Theorem start_refused_without_side_effect
  (w : World) (r : Z)
  (Hrefused : eval (isAvailable al) w = Some false \/ captureDevice w <> None) :
  exists q,
    start al impl r w = Done false (logs q w) /\
    count is_open q = 0%nat /\
    count is_onStart q = 0%nat /\
    (eval (isAvailable al) w = Some false -> In (Err msg_unavailable) q) /\
    (eval (isAvailable al) w = Some true -> In (Err msg_busy) q).
Proof.
  destruct (isAvailable_run w) as (a & q & Ha & Hq).
  rewrite (start_cases w r a q Ha).
  unfold eval in *. rewrite Ha in *.
  destruct a; cbn [negb].
  - destruct Hrefused as [H | Hslot]; [discriminate|].
    destruct (captureDevice w) as [h0|]; [|congruence]. cbn [non_null].
    exists (q ++ [Err msg_busy]). split; [reflexivity|].
    rewrite !count_app, (count_queries _ q query_not_open Hq),
      (count_queries _ q query_not_onStart Hq).
    repeat split; try discriminate.
    intros _. apply in_or_app. right. left. reflexivity.
  - exists (q ++ [Err msg_unavailable]). split; [reflexivity|].
    rewrite !count_app, (count_queries _ q query_not_open Hq),
      (count_queries _ q query_not_onStart Hq).
    repeat split; try discriminate.
    intros _. apply in_or_app. right. left. reflexivity.
Qed.

(** X3.  When the backend refuses to open the device, [start] returns
    false before anything of the recorder is changed: the slot is still
    empty, the stored rate and the buffer are the old ones, [onStart] has
    not been called, and the diagnostic names the configured device. *)
Theorem start_open_failure_leaves_idle
  (w : World) (r : Z) (b1 : B)
  (Havail : eval (isAvailable al) w = Some true)
  (Hslot : captureDevice w = None)
  (Hopen : alcCaptureOpenDevice al (m_deviceName w) r (to_ALCsizei r) (backend w)
           = (None, b1)) :
  exists w',
    start al impl r w = Done false w' /\
    captureDevice w' = None /\
    m_sampleRate w' = m_sampleRate w /\
    m_samples w' = m_samples w /\
    m_isCapturing w' = m_isCapturing w /\
    m_thread w' = m_thread w /\
    user w' = user w /\
    count is_onStart (new_events w w') = 0%nat /\
    In (Err (msg_open_failed (m_deviceName w))) (new_events w w').
Proof.
  destruct (isAvailable_run w) as (a & q & Ha & Hq).
  unfold eval in Havail. rewrite Ha in Havail. injection Havail as ->.
  rewrite (start_cases w r true q Ha). cbn [negb].
  rewrite Hslot, Hopen. cbn.
  eexists. split; [reflexivity|]. cbn.
  repeat (split; [reflexivity|]).
  erewrite new_events_app by (cbn [trace]; reflexivity).
  split.
  - rewrite count_app, (count_queries _ q query_not_onStart Hq). reflexivity.
  - apply in_or_app. right. right. left. reflexivity.
Qed.

(** ** The lifecycle as a whole *)

(** [setDevice] with the flag down. *)
Lemma setDevice_idle_run (w : World) (name : string) (fuel : nat) :
  m_isCapturing w = false ->
  setDevice al impl fuel name w =
  Done true
    (if empty name then
       set_m_deviceName (alcGetString al (backend w))
         (log (AlcGetString (alcGetString al (backend w))) w)
     else set_m_deviceName name w).
Proof.
  intros Hidle. unfold setDevice. destruct (empty name).
  - unfold getDefaultDevice. run. rewrite Hidle. reflexivity.
  - run. rewrite Hidle. reflexivity.
Qed.

(** [stop] with no thread to join, whatever the fuel. *)
Lemma stop_not_running (w : World) (fuel : nat) :
  m_thread w = NotRunning ->
  stop al impl fuel w =
  Done tt (log OnStop (set_user (onStop impl (user w)) (set_m_isCapturing false w))).
Proof.
  intros Hthread. unfold stop. unfold bind at 1, modify at 1.
  unfold bind at 1.
  rewrite (thread_wait_not_running fuel (set_m_isCapturing false w) Hthread).
  reflexivity.
Qed.

Lemma SoundRecorder_ctor_invariant (w0 : World) :
  exists w, SoundRecorder_ctor al w0 = Done tt w /\ lifecycle_invariant w.
Proof.
  unfold SoundRecorder_ctor, getDefaultDevice. run.
  eexists. split; [reflexivity|]. split; cbn; discriminate.
Qed.

Lemma start_keeps_invariant (w : World) (r : Z) :
  lifecycle_invariant w ->
  exists b w', start al impl r w = Done b w' /\ lifecycle_invariant w'.
Proof.
  intros (Hflag & Hthread).
  destruct (isAvailable_run w) as (a & q & Ha & _).
  rewrite (start_cases w r a q Ha).
  destruct a; cbn [negb].
  2:{ eexists. eexists. split; [reflexivity|]. split; cbn; assumption. }
  destruct (captureDevice w) as [h0|] eqn:Hslot; cbn [non_null].
  { eexists. eexists. split; [reflexivity|]. split; cbn; [assumption|].
    rewrite Hslot. assumption. }
  assert (Hidle : m_thread w = NotRunning).
  { destruct (m_thread w); [reflexivity|]. exfalso. apply Hthread; reflexivity. }
  destruct (alcCaptureOpenDevice al (m_deviceName w) r (to_ALCsizei r) (backend w))
    as [d b1].
  cbn zeta. destruct d as [h|]; cbn [negb non_null].
  - destruct (onStart impl (user w)) as [ok u1].
    destruct ok; eexists; eexists; (split; [reflexivity|]); split; cbn;
      try discriminate; auto.
  - eexists. eexists. split; [reflexivity|]. split; cbn; [assumption|].
    rewrite Hidle. discriminate.
Qed.

Lemma stop_keeps_invariant (w : World) (fuel : nat) :
  (0 < fuel)%nat ->
  exists w', stop al impl fuel w = Done tt w' /\ lifecycle_invariant w'.
Proof.
  intros Hfuel.
  destruct (stop_spec w fuel Hfuel) as (w' & Hrun & Hflag & Hthread & _).
  exists w'. split; [exact Hrun|]. split; congruence.
Qed.

Lemma setDevice_keeps_invariant (w : World) (name : string) (fuel : nat) :
  (0 < fuel)%nat -> lifecycle_invariant w ->
  exists b w', setDevice al impl fuel name w = Done b w' /\ lifecycle_invariant w'.
Proof.
  intros Hfuel (Hflag & Hthread).
  destruct (m_isCapturing w) eqn:Hcap.
  - destruct (setDevice_capturing w name fuel Hfuel Hcap)
      as (w1 & pre & _ & _ & _ & _ & Hrun).
    rewrite Hrun. cbn zeta.
    destruct (alcCaptureOpenDevice al name (m_sampleRate w) (to_ALCsizei (m_sampleRate w))
                (backend w1)) as [d b1].
    destruct d as [h|]; cbn [non_null]; eexists; eexists;
      (split; [reflexivity|]); split; cbn; congruence.
  - rewrite (setDevice_idle_run w name fuel Hcap).
    eexists. eexists. split; [reflexivity|].
    destruct (empty name); split; cbn; rewrite ?Hcap; auto; discriminate.
Qed.

Lemma thread_run_keeps_invariant (w : World) (k : nat) :
  lifecycle_invariant w ->
  exists w', thread_run al impl k w = Done tt w' /\ lifecycle_invariant w'.
Proof.
  intros (Hflag & Hthread).
  destruct (m_thread w) eqn:Ht.
  - exists w. split; [exact (thread_run_not_running k w Ht)|].
    split; rewrite Ht; assumption.
  - destruct (thread_run_spec k w Ht) as (w' & evs & Hrun & _ & _ & _ & _ & Hcases).
    exists w'. split; [exact Hrun|].
    destruct Hcases as [(Ht' & Hd' & _) | (Ht' & _ & Hf' & _)].
    + split; [auto | rewrite Hd'; auto].
    + split; congruence.
Qed.

(** X4.  The constructor establishes, and every member function and every
    step of the capture thread keeps, this invariant: if the capturing
    flag is up the capture thread is running, and if the capture thread is
    running the slot holds a device.  Each of the operations returns. *)
Theorem lifecycle_invariant_preserved
  (w : World) (fuel : nat)
  (Hfuel : (0 < fuel)%nat) (Hinv : lifecycle_invariant w) :
  (forall w0 : World, exists w1,
      SoundRecorder_ctor al w0 = Done tt w1 /\ lifecycle_invariant w1) /\
  (forall r, exists b w', start al impl r w = Done b w' /\ lifecycle_invariant w') /\
  (exists w', stop al impl fuel w = Done tt w' /\ lifecycle_invariant w') /\
  (forall name, exists b w',
      setDevice al impl fuel name w = Done b w' /\ lifecycle_invariant w') /\
  (forall t, exists w',
      setProcessingInterval t w = Done tt w' /\ lifecycle_invariant w') /\
  (forall k, exists w', thread_run al impl k w = Done tt w' /\ lifecycle_invariant w').
Proof.
  split; [exact SoundRecorder_ctor_invariant|].
  split; [intros r; exact (start_keeps_invariant w r Hinv)|].
  split; [exact (stop_keeps_invariant w fuel Hfuel)|].
  split; [intros name; exact (setDevice_keeps_invariant w name fuel Hfuel Hinv)|].
  split; [|intros k; exact (thread_run_keeps_invariant w k Hinv)].
  intros t. eexists. split; [reflexivity|]. exact Hinv.
Qed.

(** In the leaked state, each call returns and leaves the state leaked. *)
Lemma perform_keeps_leak (w : World) (fuel : nat) (c : Call) :
  slot_leaked w ->
  exists w', perform al impl fuel c w = Done tt w' /\ slot_leaked w'.
Proof.
  intros (Hslot & Hthread & Hflag).
  destruct c as [r | | name | t | k]; cbn [perform].
  - destruct (isAvailable_run w) as (a & q & Ha & _).
    unfold bind. rewrite (start_cases w r a q Ha).
    destruct a; cbn [negb].
    + destruct (captureDevice w) as [h0|] eqn:Hd; [|congruence]. cbn [non_null].
      eexists. split; [reflexivity|]. repeat split; cbn; congruence.
    + eexists. split; [reflexivity|]. repeat split; cbn; congruence.
  - rewrite (stop_not_running w fuel Hthread).
    eexists. split; [reflexivity|]. repeat split; cbn; congruence.
  - unfold bind. rewrite (setDevice_idle_run w name fuel Hflag).
    eexists. split; [reflexivity|].
    destruct (empty name); repeat split; cbn; congruence.
  - eexists. split; [reflexivity|]. repeat split; cbn; congruence.
  - exists w. split; [exact (thread_run_not_running k w Hthread)|].
    repeat split; assumption.
Qed.

Lemma perform_all_keeps_leak (fuel : nat) (cs : list Call) :
  forall w : World,
    slot_leaked w ->
    exists w', perform_all al impl fuel cs w = Done tt w' /\ slot_leaked w'.
Proof.
  induction cs as [|c cs IH]; intros w Hleak.
  - exists w. split; [reflexivity | exact Hleak].
  - destruct (perform_keeps_leak w fuel c Hleak) as (w1 & Hrun1 & Hleak1).
    destruct (IH w1 Hleak1) as (w' & Hrun & Hleak').
    exists w'. split; [|exact Hleak'].
    cbn [perform_all]. unfold bind. rewrite Hrun1. exact Hrun.
Qed.

(** X5.  Once the slot is occupied with nothing capturing (the state a
    [start] refused by [onStart] leaves), no sequence of calls to [start],
    [stop], [setDevice] and [setProcessingInterval] empties the slot, and a
    [start] made after any such sequence returns false, whatever [onStart]
    would answer: the recorder cannot capture again. *)
Theorem slot_leak_is_permanent
  (w : World) (fuel : nat) (cs : list Call) (r : Z)
  (Hleak : slot_leaked w) :
  exists w' w'',
    perform_all al impl fuel cs w = Done tt w' /\
    slot_leaked w' /\
    start al impl r w' = Done false w'' /\
    slot_leaked w'' /\
    count is_onStart (new_events w' w'') = 0%nat /\
    count is_open (new_events w' w'') = 0%nat.
Proof.
  destruct (perform_all_keeps_leak fuel cs w Hleak) as (w' & Hrun & Hleak').
  destruct Hleak' as (Hslot & Hthread & Hflag).
  destruct (isAvailable_run w') as (a & q & Ha & Hq).
  pose proof (start_cases w' r a q Ha) as Hstart.
  destruct (captureDevice w') as [h0|] eqn:Hd; [|congruence].
  assert (Hrefused : exists e,
             start al impl r w' = Done false (logs (q ++ [Err e]) w')).
  { destruct a; cbn [negb non_null] in Hstart; eexists; exact Hstart. }
  destruct Hrefused as (e & Hrefused).
  exists w', (logs (q ++ [Err e]) w').
  split; [exact Hrun|]. split; [repeat split; congruence|].
  split; [exact Hrefused|]. split; [repeat split; cbn; congruence|].
  erewrite new_events_app by (cbn [trace logs]; reflexivity).
  rewrite !count_app, (count_queries _ q query_not_onStart Hq),
    (count_queries _ q query_not_open Hq).
  split; reflexivity.
Qed.

(** ** Whole sessions *)

Lemma loop_event_not_onStart (e : Event) : loop_event e = true -> is_onStart e = false.
Proof. destruct e; cbn; congruence. Qed.

Lemma loop_event_not_capture_start (e : Event) :
  loop_event e = true -> is_capture_start e = false.
Proof. destruct e; cbn; congruence. Qed.

(** Counting, in the events of a cleanup, a kind of event the loop never
    produces. *)
Lemma count_cleanup_events (p : Event -> bool) (d : ALCdevice) (drain : list Event) :
  (forall e, loop_event e = true -> p e = false) ->
  one_pass d drain ->
  count p (cleanup_events d drain)
  = (count p [AlcCaptureStop d] + count p [AlcCaptureCloseDevice d])%nat.
Proof.
  intros Hp Hpass. unfold cleanup_events.
  change (AlcCaptureStop d :: drain ++ [AlcCaptureCloseDevice d])
    with ([AlcCaptureStop d] ++ drain ++ [AlcCaptureCloseDevice d]).
  rewrite !count_app.
  rewrite (count_loop_events p drain Hp (one_pass_loop_events d drain Hpass)).
  reflexivity.
Qed.

(** A running capture thread left alone for [k] steps and then stopped:
    the shape of what happens, and what is left untouched. *)
Lemma session_shape (w : World) (k fuel : nat) :
  m_thread w = Running -> (0 < fuel)%nat ->
  exists w' loop drain,
    (thread_run al impl k ;; stop al impl fuel) w = Done tt w' /\
    trace w' = trace w ++ loop ++ cleanup_events (captureDevice w) drain ++ [OnStop] /\
    loop_trace (captureDevice w) loop /\
    one_pass (captureDevice w) drain /\
    captureDevice w' = None /\
    m_isCapturing w' = false /\
    m_thread w' = NotRunning /\
    m_sampleRate w' = m_sampleRate w /\
    m_deviceName w' = m_deviceName w.
Proof.
  intros Hstarted Hfuel.
  destruct (thread_run_spec k w Hstarted)
    as (w1 & evs & Hrun & Htr & Hr1 & _ & Hn1 & Hcases).
  destruct (stop_spec w1 fuel Hfuel)
    as (w' & Hstop & Hflag & Hthread & Hr' & Hn' & Hjoined & Hidle).
  assert (Hshape : exists loop drain,
             trace w' = trace w ++ loop ++ cleanup_events (captureDevice w) drain ++ [OnStop] /\
             loop_trace (captureDevice w) loop /\
             one_pass (captureDevice w) drain /\
             captureDevice w' = None).
  { destruct Hcases as [(Ht1 & Hd1 & Hloop) | (Ht1 & Hd1 & Hf1 & loop & drain & -> & Hloop & Hdrain)].
    - destruct (Hjoined Ht1) as (Hd' & drain & Hdrain & Htr').
      exists evs, drain. rewrite Hd1 in *.
      split; [rewrite Htr', Htr, <- app_assoc; reflexivity|]. auto.
    - exists loop, drain. rewrite (Hidle Ht1). cbn.
      split; [rewrite Htr, <- !app_assoc; reflexivity|]. auto. }
  destruct Hshape as (loop & drain & Htr' & Hloop & Hdrain & Hd').
  exists w', loop, drain.
  split; [unfold bind; rewrite Hrun; exact Hstop|].
  repeat (split; [assumption|]).
  split; congruence.
Qed.

(** X6.  A session, from a [start] that returned true, through any number
    of steps of the capture thread, to the return of [stop], opens the
    device once and closes it once, starts and stops backend capture once
    each, and calls [onStart] and [onStop] once each.  It leaves the
    recorder idle with the slot empty, the rate of the [start] stored and
    the device name unchanged. *)
Theorem session_is_balanced
  (w w1 : World) (r : Z) (k fuel : nat)
  (Hfuel : (0 < fuel)%nat)
  (Hstart : start al impl r w = Done true w1) :
  exists w',
    (thread_run al impl k ;; stop al impl fuel) w1 = Done tt w' /\
    m_isCapturing w' = false /\
    m_thread w' = NotRunning /\
    captureDevice w' = None /\
    m_sampleRate w' = r /\
    m_deviceName w' = m_deviceName w /\
    count is_open (new_events w w') = 1%nat /\
    count is_close (new_events w w') = 1%nat /\
    count is_capture_start (new_events w w') = 1%nat /\
    count is_capture_stop (new_events w w') = 1%nat /\
    count is_onStart (new_events w w') = 1%nat /\
    count is_onStop (new_events w w') = 1%nat.
Proof.
  destruct (start_returns_true w w1 r Hstart) as (h & q & b1 & u1 & Hq & _ & _ & _ & ->).
  match goal with
  | |- context [bind _ _ ?x] =>
      destruct (session_shape x k fuel eq_refl Hfuel)
        as (w' & loop & drain & Hrun & Htr & Hloop & Hdrain & Hd & Hf & Ht & Hr & Hn)
  end.
  cbn [captureDevice trace m_sampleRate m_deviceName] in *.
  exists w'. split; [exact Hrun|].
  repeat (split; [assumption|]).
  erewrite new_events_app by (rewrite Htr, <- !app_assoc; reflexivity).
  pose proof (loop_trace_loop_events _ _ Hloop) as Hevs.
  rewrite !count_app.
  rewrite (count_queries _ q query_not_open Hq), (count_queries _ q query_not_close Hq),
    (count_queries _ q query_not_onStart Hq), (count_queries _ q query_not_onStop Hq).
  rewrite (count_loop_events _ loop loop_event_not_open Hevs),
    (count_loop_events _ loop loop_event_not_close Hevs),
    (count_loop_events _ loop loop_event_not_stop Hevs),
    (count_loop_events _ loop loop_event_not_onStart Hevs),
    (count_loop_events _ loop loop_event_not_onStop Hevs),
    (count_loop_events _ loop loop_event_not_capture_start Hevs).
  rewrite (count_cleanup_events _ _ _ loop_event_not_open Hdrain),
    (count_cleanup_events _ _ _ loop_event_not_close Hdrain),
    (count_cleanup_events _ _ _ loop_event_not_stop Hdrain),
    (count_cleanup_events _ _ _ loop_event_not_onStart Hdrain),
    (count_cleanup_events _ _ _ loop_event_not_onStop Hdrain),
    (count_cleanup_events _ _ _ loop_event_not_capture_start Hdrain).
  assert (Hstartq : count is_capture_start q = 0%nat).
  { apply count_queries; [|exact Hq]. intros e; destruct e; cbn; congruence. }
  assert (Hstopq : count is_capture_stop q = 0%nat).
  { apply count_queries; [|exact Hq]. intros e; destruct e; cbn; congruence. }
  rewrite Hstartq, Hstopq. cbn. repeat split; reflexivity.
Qed.

(** ** Switching device while capturing *)

(** [setDevice] on a recorder whose capture thread runs: the name is
    stored, the thread is joined (its cleanup runs), and the reopen
    decides the rest. *)
Lemma setDevice_restart_run (w : World) (name : string) (fuel : nat) :
  (0 < fuel)%nat -> m_isCapturing w = true -> m_thread w = Running ->
  exists w1 q drain,
    Forall (fun e => is_query e = true) q /\
    one_pass (captureDevice w) drain /\
    trace w1 = trace w ++ q ++ cleanup_events (captureDevice w) drain /\
    m_deviceName w1 = (if empty name then alcGetString al (backend w) else name) /\
    m_sampleRate w1 = m_sampleRate w /\
    m_processingInterval w1 = m_processingInterval w /\
    setDevice al impl fuel name w =
    let rate := m_sampleRate w in
    let '(d, b1) := alcCaptureOpenDevice al name rate (to_ALCsizei rate) (backend w1) in
    if non_null d then
      Done true
        (mkWorld d Running (m_samples w1) rate (m_processingInterval w1) true
                 (m_deviceName w1) (alcCaptureStart al d b1) (user w1)
                 (trace w1 ++ [AlcCaptureOpenDevice name rate (to_ALCsizei rate) d;
                               AlcCaptureStart d]))
    else
      Done false
        (mkWorld d NotRunning (m_samples w1) rate (m_processingInterval w1) false
                 (m_deviceName w1) b1 (onStop impl (user w1))
                 (trace w1 ++ [AlcCaptureOpenDevice name rate (to_ALCsizei rate) d;
                               OnStop;
                               Err (msg_open_failed (m_deviceName w1))])).
Proof.
  intros Hfuel Hcap Hthread.
  assert (Hstore : exists w0 q,
             setDevice al impl fuel name w =
             (thread_wait al impl fuel ;;
              rate <- gets m_sampleRate ;;
              dev <- call_alcCaptureOpenDevice al name rate (to_ALCsizei rate) ;;
              modify (set_captureDevice dev) ;;
              if negb (non_null dev) then
                call_onStop impl ;;
                stored <- gets m_deviceName ;;
                err (msg_open_failed stored) ;;
                ret false
              else
                dev <- gets captureDevice ;;
                call_alcCaptureStart al dev ;;
                modify (set_m_isCapturing true) ;;
                thread_launch ;;
                ret true) w0 /\
             Forall (fun e => is_query e = true) q /\
             trace w0 = trace w ++ q /\
             m_deviceName w0 = (if empty name then alcGetString al (backend w) else name) /\
             m_isCapturing w0 = false /\
             m_thread w0 = Running /\
             captureDevice w0 = captureDevice w /\
             m_sampleRate w0 = m_sampleRate w /\
             m_processingInterval w0 = m_processingInterval w).
  { unfold setDevice. destruct (empty name).
    - eexists. exists [AlcGetString (alcGetString al (backend w))].
      split.
      + unfold getDefaultDevice, call_alcGetString.
        unfold bind at 1, bind at 1, modify at 1, bind at 1, gets at 1.
        cbn [m_isCapturing set_m_deviceName log]. rewrite Hcap.
        unfold bind at 1, modify at 1. reflexivity.
      + cbn. repeat split; auto.
    - eexists. exists [].
      split.
      + unfold bind at 1, modify at 1, bind at 1, gets at 1.
        cbn [m_isCapturing set_m_deviceName]. rewrite Hcap.
        unfold bind at 1, modify at 1. reflexivity.
      + cbn. rewrite app_nil_r. repeat split; auto. }
  destruct Hstore as (w0 & q & -> & Hq & Htr0 & Hn0 & Hflag0 & Ht0 & Hd0 & Hr0 & Hi0).
  destruct (thread_wait_stopped fuel w0 Hfuel Ht0 Hflag0)
    as (w1 & drain & Hrun & Htr1 & Hpass & Hd1 & Ht1 & Hr1 & Hi1 & Hn1 & Hf1).
  rewrite Hd0 in *.
  exists w1, q, drain.
  split; [exact Hq|]. split; [exact Hpass|].
  split; [rewrite Htr1, Htr0, <- app_assoc; reflexivity|].
  split; [congruence|]. split; [congruence|]. split; [congruence|].
  unfold bind at 1. rewrite Hrun. run. rewrite Hr1, Hr0.
  destruct (alcCaptureOpenDevice al name (m_sampleRate w) (to_ALCsizei (m_sampleRate w))
              (backend w1)) as [d b1].
  cbn. destruct d as [h|]; cbn; rewrite <- !app_assoc, ?Ht1, ?Hf1; reflexivity.
Qed.


(** ** The buffer, the interval, the rate *)

Lemma store_samples_exact (data v : list Z) (n : Z) :
  length data = Z.to_nat n -> store_samples data (resize v n) = data.
Proof.
  intros Hlen. unfold store_samples.
  rewrite length_resize, <- Hlen.
  rewrite skipn_all2 by (rewrite length_resize; lia).
  rewrite app_nil_r. apply firstn_all.
Qed.

(** X8.  When the backend writes the [n] samples it was asked for, the
    buffer after the pass is exactly those samples, whatever it held
    before, and they are what [onProcessSamples] is handed. *)
Theorem hook_sees_what_backend_wrote
  (w : World) (n : Z) (b1 b2 : B) (data : list Z)
  (Hpoll : alcGetIntegerv al (captureDevice w) (backend w) = (n, b1))
  (Hn : 0 < n)
  (Hpull : alcCaptureSamples al (captureDevice w) n b1 = (data, b2))
  (Hlen : length data = Z.to_nat n) :
  exists w1 ok,
    processCapturedSamples al impl w = Done tt w1 /\
    m_samples w1 = data /\
    new_events w w1 =
      [AlcGetIntegerv (captureDevice w) n; AlcCaptureSamples (captureDevice w) n;
       OnProcessSamples data n ok].
Proof.
  destruct (onProcessSamples impl (store_samples data (resize (m_samples w) n)) n (user w))
    as [ok u1] eqn:Hhook.
  rewrite (processCapturedSamples_forward w n b1 b2 data ok u1 Hpoll Hn Hpull Hhook).
  rewrite (store_samples_exact data (m_samples w) n Hlen).
  eexists. exists ok. split; [reflexivity|]. cbn. split; [reflexivity|].
  apply new_events_app. reflexivity.
Qed.

(** X9.  A processing interval set while capturing is the one the capture
    thread sleeps for at the end of its very next iteration. *)
Theorem processing_interval_takes_effect
  (w : World) (t : Z)
  (Hthread : m_thread w = Running)
  (Hcapturing : m_isCapturing w = true) :
  exists w' pass,
    (setProcessingInterval t ;; thread_step al impl) w = Done tt w' /\
    one_pass (captureDevice w) pass /\
    new_events w w' = pass ++ [Sleep t] /\
    m_processingInterval w' = t.
Proof.
  destruct (record_body_spec (set_m_processingInterval t w))
    as (w' & pass & Hrun & Htr & Hpass & Hcfg & _).
  destruct Hcfg as (_ & _ & _ & Hi & _).
  exists w', pass.
  split.
  - unfold setProcessingInterval, thread_step.
    unfold bind at 1, modify at 1, bind at 1, gets at 1.
    cbn [m_thread set_m_processingInterval]. rewrite Hthread.
    unfold bind at 1, gets at 1.
    cbn [m_isCapturing set_m_processingInterval]. rewrite Hcapturing. exact Hrun.
  - split; [exact Hpass|]. split; [|exact Hi].
    apply new_events_app. exact Htr.
Qed.

(** X10.  The stored sample rate is changed by [start] only: [stop],
    [setDevice] (on either of its paths), [setProcessingInterval] and the
    capture thread all leave it as it is. *)
Theorem sample_rate_only_set_by_start
  (w : World) (fuel : nat) (Hfuel : (0 < fuel)%nat) :
  (exists w', stop al impl fuel w = Done tt w' /\ m_sampleRate w' = m_sampleRate w) /\
  (forall name, exists b w',
      setDevice al impl fuel name w = Done b w' /\ m_sampleRate w' = m_sampleRate w) /\
  (forall t, exists w',
      setProcessingInterval t w = Done tt w' /\ m_sampleRate w' = m_sampleRate w) /\
  (forall k, exists w',
      thread_run al impl k w = Done tt w' /\ m_sampleRate w' = m_sampleRate w).
Proof.
  split.
  { destruct (stop_spec w fuel Hfuel) as (w' & Hrun & _ & _ & Hr & _).
    exists w'. auto. }
  split.
  { intros name. destruct (m_isCapturing w) eqn:Hcap.
    - destruct (setDevice_capturing w name fuel Hfuel Hcap)
        as (w1 & pre & _ & _ & _ & _ & Hrun).
      rewrite Hrun. cbn zeta.
      destruct (alcCaptureOpenDevice al name (m_sampleRate w) (to_ALCsizei (m_sampleRate w))
                  (backend w1)) as [d b1].
      destruct (non_null d); eexists; eexists; split; reflexivity.
    - rewrite (setDevice_idle_run w name fuel Hcap).
      eexists. eexists. split; [reflexivity|]. destruct (empty name); reflexivity. }
  split.
  { intros t. eexists. split; reflexivity. }
  intros k. destruct (m_thread w) eqn:Hthread.
  - exists w. split; [exact (thread_run_not_running k w Hthread) | reflexivity].
  - destruct (thread_run_spec k w Hthread) as (w' & evs & Hrun & _ & Hr & _).
    exists w'. auto.
Qed.

(** X11.  Left to itself, the capture thread never opens a device, never
    starts backend capture and never calls [onStart] or [onStop]; it leaves
    the device name and the processing interval alone, and the only thing it
    ever does to the slot is to empty it. *)
Theorem capture_thread_frame (w : World) (k : nat) :
  exists w',
    thread_run al impl k w = Done tt w' /\
    m_deviceName w' = m_deviceName w /\
    m_processingInterval w' = m_processingInterval w /\
    (captureDevice w' = captureDevice w \/ captureDevice w' = None) /\
    count is_open (new_events w w') = 0%nat /\
    count is_capture_start (new_events w w') = 0%nat /\
    count is_onStart (new_events w w') = 0%nat /\
    count is_onStop (new_events w w') = 0%nat.
Proof.
  destruct (m_thread w) eqn:Hthread.
  - exists w. split; [exact (thread_run_not_running k w Hthread)|].
    erewrite new_events_app by (rewrite app_nil_r; reflexivity).
    repeat split; auto.
  - destruct (thread_run_spec k w Hthread)
      as (w' & evs & Hrun & Htr & _ & Hi & Hn & Hcases).
    exists w'. split; [exact Hrun|]. split; [exact Hn|]. split; [exact Hi|].
    rewrite (new_events_app w w' evs Htr).
    destruct Hcases as [(_ & Hd & Hloop) | (_ & Hd & _ & loop & drain & -> & Hloop & Hdrain)].
    + pose proof (loop_trace_loop_events _ _ Hloop) as Hevs.
      split; [left; exact Hd|].
      rewrite (count_loop_events _ evs loop_event_not_open Hevs),
        (count_loop_events _ evs loop_event_not_capture_start Hevs),
        (count_loop_events _ evs loop_event_not_onStart Hevs),
        (count_loop_events _ evs loop_event_not_onStop Hevs).
      repeat split; reflexivity.
    + pose proof (loop_trace_loop_events _ _ Hloop) as Hevs.
      split; [right; exact Hd|].
      rewrite !count_app.
      rewrite (count_loop_events _ loop loop_event_not_open Hevs),
        (count_loop_events _ loop loop_event_not_capture_start Hevs),
        (count_loop_events _ loop loop_event_not_onStart Hevs),
        (count_loop_events _ loop loop_event_not_onStop Hevs).
      rewrite (count_cleanup_events _ _ _ loop_event_not_open Hdrain),
        (count_cleanup_events _ _ _ loop_event_not_capture_start Hdrain),
        (count_cleanup_events _ _ _ loop_event_not_onStart Hdrain),
        (count_cleanup_events _ _ _ loop_event_not_onStop Hdrain).
      repeat split; reflexivity.
Qed.

(** ** The stored name, and a loop that nobody stops *)

(** X14.  On a recorder in a state of its lifecycle, [setDevice(name)]
    returns, and whatever it returns (also false, when the reopen failed)
    the device [getDevice()] then reports is [name], or the backend's
    default device when [name] is empty. *)
Theorem setDevice_then_getDevice
  (w : World) (name : string) (fuel : nat)
  (Hfuel : (0 < fuel)%nat) (Hinv : lifecycle_invariant w) :
  exists b w',
    setDevice al impl fuel name w = Done b w' /\
    eval getDevice w' = Some (if empty name then alcGetString al (backend w) else name).
Proof.
  destruct Hinv as (Hflag & _).
  destruct (m_isCapturing w) eqn:Hcap.
  - destruct (setDevice_restart_run w name fuel Hfuel Hcap (Hflag eq_refl))
      as (w1 & q & drain & _ & _ & _ & Hn & _ & _ & Hrun).
    rewrite Hrun. cbn zeta.
    destruct (alcCaptureOpenDevice al name (m_sampleRate w) (to_ALCsizei (m_sampleRate w))
                (backend w1)) as [d b1].
    destruct (non_null d); eexists; eexists; (split; [reflexivity|]);
      unfold eval, getDevice, gets; cbn; rewrite Hn; reflexivity.
  - rewrite (setDevice_idle_run w name fuel Hcap).
    eexists. eexists. split; [reflexivity|].
    destruct (empty name); reflexivity.
Qed.

(** With a hook that answers true, a pass leaves the flag as it was. *)
Lemma record_body_keeps_flag (w : World) :
  (forall samples n u, fst (onProcessSamples impl samples n u) = true) ->
  exists w', record_body al impl w = Done tt w' /\ m_isCapturing w' = m_isCapturing w.
Proof.
  intros Hhook. unfold record_body.
  destruct (alcGetIntegerv al (captureDevice w) (backend w)) as [n b1] eqn:Hpoll.
  destruct (Z.ltb_spec 0 n) as [Hn | Hn].
  - destruct (alcCaptureSamples al (captureDevice w) n b1) as [data b2] eqn:Hpull.
    destruct (onProcessSamples impl (store_samples data (resize (m_samples w) n)) n (user w))
      as [ok u1] eqn:Hok.
    assert (ok = true) as ->.
    { pose proof (Hhook (store_samples data (resize (m_samples w) n)) n (user w)) as H.
      rewrite Hok in H. exact H. }
    unfold bind at 1.
    rewrite (processCapturedSamples_forward w n b1 b2 data true u1 Hpoll Hn Hpull Hok).
    run. eexists. split; [reflexivity|]. cbn. apply andb_true_r.
  - unfold bind at 1. rewrite (processCapturedSamples_nothing w n b1 Hpoll Hn).
    run. eexists. split; reflexivity.
Qed.

(** X15.  The capture loop has no exit of its own: if [onProcessSamples]
    answers true on every chunk and nobody lowers the capturing flag,
    [record] is still in its loop after any number of iterations. *)
Theorem record_runs_until_stopped
  (w : World) (fuel : nat)
  (Hhook : forall samples n u, fst (onProcessSamples impl samples n u) = true)
  (Hcapturing : m_isCapturing w = true) :
  record al impl fuel w = OutOfFuel.
Proof.
  revert w Hcapturing. induction fuel as [|fuel IH]; intros w Hcapturing.
  - reflexivity.
  - cbn [record]. unfold bind at 1, gets at 1. rewrite Hcapturing.
    destruct (record_body_keeps_flag w Hhook) as (w' & Hrun & Hflag).
    unfold bind. rewrite Hrun. apply IH. congruence.
Qed.

End Facts.

(** ** The device list *)

Lemma strlen_terminated (l rest : list Ascii.ascii) :
  ~ In Ascii.zero l -> strlen (l ++ Ascii.zero :: rest) = Some (length l).
Proof.
  induction l as [|c l IH]; intros Hl; cbn.
  - reflexivity.
  - destruct (Ascii.eqb_spec c Ascii.zero) as [-> | Hc].
    + exfalso. apply Hl. left. reflexivity.
    + rewrite IH; [reflexivity|]. intros Hin. apply Hl. right. exact Hin.
Qed.

Lemma strlen_split (p : list Ascii.ascii) (n : nat) :
  strlen p = Some n ->
  p = firstn n p ++ Ascii.zero :: skipn (n + 1) p /\ ~ In Ascii.zero (firstn n p).
Proof.
  revert n. induction p as [|c q IH]; intros n; cbn [strlen]; [discriminate|].
  destruct (Ascii.eqb_spec c Ascii.zero) as [-> | Hc].
  - intros H. injection H as <-. cbn. auto.
  - destruct (strlen q) as [m|]; cbn; [|discriminate].
    intros H. injection H as <-.
    destruct (IH m eq_refl) as (Hq & Hfree).
    cbn. split.
    + f_equal. exact Hq.
    + intros [H | H]; [congruence | exact (Hfree H)].
Qed.

Lemma length_names_bytes (names : list string) :
  (length names
   <= length (flat_map (fun name => list_ascii_of_string name ++ [Ascii.zero]) names))%nat.
Proof.
  induction names as [|name names IH]; cbn [flat_map length]; [lia|].
  rewrite !length_app. cbn [length]. lia.
Qed.

(** The loop on a well-formed list, with fuel for one test per name and
    one for the end. *)
Lemma getAvailableDevices_loop_complete (names : list string) :
  forall (fuel : nat) (acc : list string) (rest : list Ascii.ascii),
    Forall device_name names ->
    (length names < fuel)%nat ->
    getAvailableDevices_loop fuel
      (flat_map (fun name => list_ascii_of_string name ++ [Ascii.zero]) names
       ++ Ascii.zero :: rest) acc
    = Some (acc ++ names).
Proof.
  induction names as [|name names IH]; intros fuel acc rest Hnames Hfuel.
  - destruct fuel as [|fuel]; [cbn in Hfuel; lia|].
    cbn. rewrite app_nil_r. reflexivity.
  - destruct fuel as [|fuel]; [cbn in Hfuel; lia|].
    inversion Hnames as [|? ? (Hne & Hfree) Hrest]; subst.
    cbn [flat_map]. rewrite <- !app_assoc. cbn [app].
    set (tail := flat_map (fun name => list_ascii_of_string name ++ [Ascii.zero]) names
                 ++ Ascii.zero :: rest).
    assert (Hlen : strlen (list_ascii_of_string name ++ Ascii.zero :: tail)
                   = Some (length (list_ascii_of_string name)))
      by (apply strlen_terminated; exact Hfree).
    destruct (list_ascii_of_string name) as [|c cs] eqn:Hchars.
    { exfalso. apply Hne. rewrite <- (string_of_list_ascii_of_string name), Hchars.
      reflexivity. }
    assert (Hc : Ascii.eqb c Ascii.zero = false).
    { apply Ascii.eqb_neq. intros ->. apply Hfree. left. reflexivity. }
    cbn [getAvailableDevices_loop app]. rewrite Hc.
    unfold std_string. change ((c :: cs) ++ Ascii.zero :: tail) with (c :: cs ++ Ascii.zero :: tail) in Hlen.
    rewrite Hlen. cbn [option_map].
    change (c :: cs ++ Ascii.zero :: tail) with ((c :: cs) ++ Ascii.zero :: tail).
    rewrite firstn_app, firstn_all, Nat.sub_diag. cbn [firstn]. rewrite app_nil_r.
    rewrite skipn_app, skipn_all2 by lia.
    replace (length (c :: cs) + 1 - length (c :: cs))%nat with 1%nat by lia.
    cbn [skipn app].
    rewrite <- Hchars, string_of_list_ascii_of_string.
    unfold tail. rewrite (IH fuel (acc ++ [name]) rest Hrest) by (cbn in Hfuel; lia).
    rewrite <- app_assoc. reflexivity.
Qed.

(** What the loop returns, when it returns a list, was in the memory. *)
Lemma getAvailableDevices_loop_sound (fuel : nat) :
  forall (p : list Ascii.ascii) (acc l : list string),
    getAvailableDevices_loop fuel p acc = Some l ->
    exists names rest,
      l = acc ++ names /\
      Forall device_name names /\
      p = device_list_bytes names ++ rest.
Proof.
  induction fuel as [|fuel IH]; intros p acc l; cbn [getAvailableDevices_loop];
    [discriminate|].
  destruct p as [|c q]; [discriminate|].
  destruct (Ascii.eqb_spec c Ascii.zero) as [-> | Hc].
  - intros H. injection H as <-.
    exists [], q. rewrite app_nil_r. repeat split; auto.
  - unfold std_string.
    destruct (strlen (c :: q)) as [n|] eqn:Hlen; cbn [option_map]; [|discriminate].
    intros Hloop.
    destruct (IH _ _ _ Hloop) as (names & rest & -> & Hnames & Hrest).
    destruct (strlen_split (c :: q) n Hlen) as (Hsplit & Hfree).
    exists (string_of_list_ascii (firstn n (c :: q)) :: names), rest.
    split; [rewrite <- app_assoc; reflexivity|].
    split.
    + constructor; [|exact Hnames].
      split.
      * destruct n as [|n].
        { cbn in Hlen. destruct (Ascii.eqb_spec c Ascii.zero); [congruence|].
          destruct (strlen q); discriminate. }
        cbn. discriminate.
      * rewrite list_ascii_of_string_of_list_ascii. exact Hfree.
    + unfold device_list_bytes in *. cbn [flat_map].
      rewrite list_ascii_of_string_of_list_ascii.
      rewrite Hsplit at 1. rewrite Hrest.
      rewrite <- !app_assoc. reflexivity.
Qed.

(** X12.  [getAvailableDevices] reads back a device list as OpenAL lays it
    out: on the memory holding the names, each followed by a NUL, and a
    final NUL, it returns exactly the names, in order, and does not look
    at what follows the final NUL.  (A NULL list gives no names.) *)
Theorem getAvailableDevices_reads_device_list
  (names : list string) (rest : list Ascii.ascii)
  (Hnames : Forall device_name names) :
  getAvailableDevices (Some (device_list_bytes names ++ rest)) = Some names /\
  getAvailableDevices None = Some [].
Proof.
  split; [|reflexivity].
  unfold getAvailableDevices, device_list_bytes.
  rewrite <- app_assoc. cbn [app].
  apply (getAvailableDevices_loop_complete names _ [] rest Hnames).
  rewrite length_app. pose proof (length_names_bytes names). lia.
Qed.

(** X13.  Whenever [getAvailableDevices] returns names for a non-NULL
    list, every name is non-empty and free of NUL, and the memory begins
    with exactly these names, each NUL-terminated, followed by the closing
    NUL: it never invents, merges or splits a name. *)
Theorem getAvailableDevices_sound
  (p : list Ascii.ascii) (names : list string)
  (Hparsed : getAvailableDevices (Some p) = Some names) :
  Forall device_name names /\
  exists rest, p = device_list_bytes names ++ rest.
Proof.
  unfold getAvailableDevices in Hparsed.
  destruct (getAvailableDevices_loop_sound _ _ _ _ Hparsed)
    as (names' & rest & -> & Hnames & Hp).
  cbn [app]. split; [exact Hnames|]. exists rest. exact Hp.
Qed.

(** * The recorder on a scripted machine *)

Import Scripted.

(** The worlds used below are states the program reaches. *)
Example constructed_reached (s : Script) :
  SoundRecorder_ctor script (program_start s) = Done tt (constructed s).
Proof. reflexivity. Qed.

Example capturing_reached (counts : list Z) :
  start script willing 44100 (constructed (machine counts)) = Done true (capturing counts).
Proof. vm_compute. reflexivity. Qed.

(** Scenario A: a backend that never has samples; no hook call, one drain
    poll on [stop()], then the close. *)
Example scenario_A :
  exists w',
    (thread_run script willing 4 ;; stop script willing 1) (capturing []) = Done tt w' /\
    hook_counts (new_events (capturing []) w') = [] /\
    skipn 8 (new_events (capturing []) w') =
      [AlcCaptureStop (Some 1%N); AlcGetIntegerv (Some 1%N) 0;
       AlcCaptureCloseDevice (Some 1%N); OnStop].
Proof.
  eexists. split; [vm_compute; reflexivity|]. split; vm_compute; reflexivity.
Qed.

(** ** C1 *)

(** C1 as stated fails.  On a machine that supports capture, with the
    slot empty, but whose device cannot be opened, [start(44100)] returns
    false: availability and a free slot do not suffice. *)
Lemma start_not_iff_available_and_free :
  ~ (eval (start script willing 44100) (constructed no_microphone) = Some true <->
     eval (isAvailable script) (constructed no_microphone) = Some true /\
     captureDevice (constructed no_microphone) = None).
Proof.
  intros [_ H].
  assert (Hstart : eval (start script willing 44100) (constructed no_microphone) = Some true).
  { apply H. split; vm_compute; reflexivity. }
  vm_compute in Hstart. discriminate.
Qed.

Lemma start_succeeds_iff_witness :
  eval (start script willing 44100) (constructed (machine [])) = Some true.
Proof.
  apply (start_succeeds_iff script willing (constructed (machine [])) 44100).
  - split; reflexivity.
  - split; [vm_compute; reflexivity|].
    split; [reflexivity|].
    split; [vm_compute; discriminate | reflexivity].
Defined.

(** ** C2 and C9 *)

Lemma start_hook_rejects_device_stays_open_witness :
  exists w',
    start script unwilling 44100 (constructed (machine [])) = Done false w' /\
    captureDevice w' = Some 1%N /\
    count is_close (new_events (constructed (machine [])) w') = 0%nat.
Proof.
  destruct (start_hook_rejects_device_stays_open script unwilling
              (constructed (machine [])) 44100 1%N (machine []) fresh_probe)
    as (w' & Hrun & Hslot & _ & Hclose & _);
    [vm_compute; reflexivity | reflexivity | vm_compute; reflexivity | reflexivity |].
  exists w'. auto.
Defined.

Lemma start_hook_rejects_rate_stored_witness :
  exists w',
    start script unwilling 48000 (constructed (machine [])) = Done false w' /\
    eval getSampleRate w' = Some 48000.
Proof.
  destruct (start_hook_rejects_rate_stored script unwilling
              (constructed (machine [])) 48000 1%N (machine []) fresh_probe)
    as (w' & Hrun & _ & _ & Hrate);
    [vm_compute; reflexivity | reflexivity | vm_compute; reflexivity | reflexivity |].
  exists w'. auto.
Defined.

(** ** C3 *)

Lemma cleanup_once_per_session_witness :
  exists w',
    (thread_run script willing 3 ;; stop script willing 1) (capturing [100; 50; 0])
    = Done tt w' /\
    captureDevice w' = None /\
    count is_capture_stop (new_events (capturing [100; 50; 0]) w') = 1%nat /\
    count is_close (new_events (capturing [100; 50; 0]) w') = 1%nat.
Proof.
  destruct (cleanup_once_per_session script willing (capturing [100; 50; 0]) 3 1)
    as (w' & loop & drain & Hrun & _ & _ & _ & Hslot & _ & _ & Hstop & Hclose);
    [reflexivity | lia |].
  exists w'. auto.
Defined.

(** ** C4: scenario B *)

Lemma poll_and_forward_witness :
  exists w',
    thread_run script willing 3 (capturing [100; 50; 0]) = Done tt w' /\
    hook_counts (new_events (capturing [100; 50; 0]) w') = [100; 50] /\
    seen (user w') = [100; 50].
Proof.
  destruct (poll_and_forward script willing (capturing [100; 50; 0]) 3 100 (machine [50; 0]))
    as (_ & w' & Hrun & _ & Hscenario);
    [reflexivity|].
  exists w'. split; [exact Hrun|].
  vm_compute in Hrun. injection Hrun as Hw'. subst w'.
  split; [apply Hscenario|]; vm_compute; reflexivity.
Defined.

(** ** C5 and C10 *)

Lemma setDevice_reopen_failure_witness :
  exists w',
    setDevice script willing 1 "line-in" (capturing [3]) = Done false w' /\
    m_isCapturing w' = false /\
    m_thread w' = NotRunning /\
    count is_onStop (new_events (capturing [3]) w') = 1%nat.
Proof.
  destruct (setDevice_reopen_failure script willing (capturing [3]) "line-in" 1)
    as (b & w' & Hrun & Hfailed);
    [lia | reflexivity |].
  assert (Hopen : open_failed (new_events (capturing [3]) w')).
  { vm_compute in Hrun. injection Hrun as _ Hw'. subst w'.
    exists "line-in", 44100, 44100. vm_compute. tauto. }
  destruct (Hfailed Hopen) as (-> & Hflag & Hthread & Hcount).
  exists w'. auto.
Defined.

Lemma setDevice_reopen_failure_frees_slot_witness :
  exists w',
    setDevice script willing 1 "line-in" (capturing [3]) = Done false w' /\
    captureDevice w' = None /\
    exists b' w'',
      start script willing 44100 w' = Done b' w'' /\
      ~ In (Err msg_busy) (new_events w' w'').
Proof.
  destruct (setDevice_reopen_failure_frees_slot script willing (capturing [3]) "line-in" 1)
    as (b & w' & Hrun & Hfailed);
    [lia | reflexivity |].
  assert (Hopen : open_failed (new_events (capturing [3]) w')).
  { vm_compute in Hrun. injection Hrun as _ Hw'. subst w'.
    exists "line-in", 44100, 44100. vm_compute. tauto. }
  destruct (Hfailed Hopen) as (-> & Hslot & Hnext).
  exists w'. split; [exact Hrun|]. split; [exact Hslot|].
  exact (Hnext 44100).
Defined.

(** ** C6 *)

(** C6 as stated fails in its last part.  A recorder that was never
    started is idle; each [stop()] on it calls [onStop], which the derived
    class sees: after one call it has counted one stop, after a second
    call two, and the second call is in the trace. *)
Lemma stop_when_idle_is_observable :
  exists w1 w2,
    stop script willing 1 (constructed (machine [])) = Done tt w1 /\
    m_isCapturing w1 = false /\ m_thread w1 = NotRunning /\
    stop script willing 1 w1 = Done tt w2 /\
    new_events w1 w2 = [OnStop] /\
    stops (user w1) = 1%nat /\ stops (user w2) = 2%nat /\
    w2 <> w1.
Proof.
  eexists. eexists.
  split; [vm_compute; reflexivity|].
  split; [reflexivity|]. split; [reflexivity|].
  split; [vm_compute; reflexivity|].
  split; [vm_compute; reflexivity|].
  split; [reflexivity|]. split; [reflexivity|].
  intros H. apply (f_equal (fun w => stops (user w))) in H. discriminate.
Qed.

Lemma stop_joins_then_notifies_witness :
  exists w',
    stop script willing 1 (capturing [5]) = Done tt w' /\
    m_thread w' = NotRunning /\
    captureDevice w' = None.
Proof.
  destruct (stop_joins_then_notifies script willing (capturing [5]) 1)
    as (w' & Hrun & _ & Hthread & Hjoined & _);
    [lia|].
  exists w'. split; [exact Hrun|]. split; [exact Hthread|].
  exact (proj1 (Hjoined eq_refl)).
Defined.

(** ** C7 *)

Lemma hook_requests_stop_witness :
  exists w' drain,
    record script one_chunk 2 (capturing [100; 50]) = Done tt w' /\
    new_events (capturing [100; 50]) w' =
      [AlcGetIntegerv (Some 1%N) 100; AlcCaptureSamples (Some 1%N) 100;
       OnProcessSamples (repeat 7 100%nat) 100 false; Sleep 100000]
      ++ [AlcCaptureStop (Some 1%N)] ++ drain ++ [AlcCaptureCloseDevice (Some 1%N)] /\
    (count is_onProcessSamples drain <= 1)%nat.
Proof.
  destruct (hook_requests_stop script one_chunk (capturing [100; 50]) 0 100
              (machine [50]) (machine [50]) (repeat 7 100%nat) (mkProbe [100] 0))
    as (_ & w' & drain & Hrun & Hevents & _ & Hcount & _);
    [reflexivity | reflexivity | reflexivity | reflexivity | vm_compute; reflexivity |].
  exists w', drain. split; [exact Hrun|]. split; [exact Hevents | exact Hcount].
Defined.

(** ** C8 *)

Lemma setDevice_idle_only_stores_name_witness :
  setDevice script willing 0 "" (constructed (machine []))
  = Done true (set_m_deviceName "mic" (log (AlcGetString "mic") (constructed (machine [])))).
Proof.
  destruct (setDevice_idle_only_stores_name script willing (constructed (machine [])) "" 0)
    as (w' & Hrun & _ & Hdefault & _);
    [reflexivity|].
  rewrite Hrun, (Hdefault eq_refl). reflexivity.
Defined.

(** ** Further runs on the scripted machine *)

Example refused_reached (counts : list Z) :
  start script moody 44100 (constructed (machine counts)) = Done false (refused counts).
Proof. vm_compute. reflexivity. Qed.

Lemma start_success_state_witness :
  m_isCapturing (capturing [100; 50]) = true /\
  m_thread (capturing [100; 50]) = Running /\
  m_sampleRate (capturing [100; 50]) = 44100.
Proof.
  destruct (start_success_state script willing (constructed (machine [100; 50]))
              (capturing [100; 50]) 44100)
    as (Hflag & Hthread & _ & Hrate & _);
    [vm_compute; reflexivity|].
  auto.
Defined.

Lemma start_refused_without_side_effect_witness :
  exists q,
    start script willing 48000 (capturing []) = Done false (logs q (capturing [])) /\
    In (Err msg_busy) q.
Proof.
  destruct (start_refused_without_side_effect script willing (capturing []) 48000)
    as (q & Hrun & _ & _ & _ & Hbusy);
    [right; discriminate|].
  exists q. split; [exact Hrun|]. apply Hbusy. vm_compute. reflexivity.
Defined.

Lemma start_open_failure_leaves_idle_witness :
  exists w',
    start script willing 44100 (constructed no_microphone) = Done false w' /\
    captureDevice w' = None /\
    m_sampleRate w' = 0.
Proof.
  destruct (start_open_failure_leaves_idle script willing (constructed no_microphone)
              44100 no_microphone)
    as (w' & Hrun & Hslot & Hrate & _);
    [vm_compute; reflexivity | reflexivity | vm_compute; reflexivity |].
  exists w'. auto.
Defined.

Lemma lifecycle_invariant_preserved_witness :
  exists b w',
    setDevice script willing 1 "line-in" (capturing [5]) = Done b w' /\
    lifecycle_invariant w'.
Proof.
  assert (Hinv : lifecycle_invariant (capturing [5])).
  { split; cbn; intros; [reflexivity | discriminate]. }
  destruct (lifecycle_invariant_preserved script willing (capturing [5]) 1)
    as (_ & _ & _ & Hset & _);
    [lia | exact Hinv |].
  exact (Hset "line-in").
Defined.

Lemma slot_leak_is_permanent_witness :
  exists w' w'',
    perform_all script moody 1 [Call_stop; Call_setDevice "mic"; Thread_steps 2] (refused [])
    = Done tt w' /\
    fst (onStart moody (user w')) = true /\
    start script moody 44100 w' = Done false w''.
Proof.
  destruct (slot_leak_is_permanent script moody (refused []) 1
              [Call_stop; Call_setDevice "mic"; Thread_steps 2] 44100)
    as (w' & w'' & Hrun & _ & Hstart & _);
    [split; [discriminate | split; reflexivity]|].
  exists w', w''. split; [exact Hrun|]. split; [|exact Hstart].
  vm_compute in Hrun. injection Hrun as Hw'. subst w'. reflexivity.
Defined.

Lemma session_is_balanced_witness :
  exists w',
    (thread_run script willing 3 ;; stop script willing 1) (capturing [100; 50; 0])
    = Done tt w' /\
    captureDevice w' = None /\
    count is_open (new_events (constructed (machine [100; 50; 0])) w') = 1%nat /\
    count is_close (new_events (constructed (machine [100; 50; 0])) w') = 1%nat.
Proof.
  destruct (session_is_balanced script willing (constructed (machine [100; 50; 0]))
              (capturing [100; 50; 0]) 44100 3 1)
    as (w' & Hrun & _ & _ & Hslot & _ & _ & Hopen & Hclose & _);
    [lia | vm_compute; reflexivity |].
  exists w'. auto.
Defined.


Lemma hook_sees_what_backend_wrote_witness :
  exists w1 ok,
    processCapturedSamples script willing (capturing [4]) = Done tt w1 /\
    m_samples w1 = [7; 7; 7; 7] /\
    new_events (capturing [4]) w1 =
      [AlcGetIntegerv (Some 1%N) 4; AlcCaptureSamples (Some 1%N) 4;
       OnProcessSamples [7; 7; 7; 7] 4 ok].
Proof.
  exact (hook_sees_what_backend_wrote script willing (capturing [4]) 4
           (machine []) (machine []) [7; 7; 7; 7]
           eq_refl eq_refl eq_refl eq_refl).
Defined.

Lemma processing_interval_takes_effect_witness :
  exists w' pass,
    (setProcessingInterval 5000 ;; thread_step script willing) (capturing [2]) = Done tt w' /\
    new_events (capturing [2]) w' = pass ++ [Sleep 5000].
Proof.
  destruct (processing_interval_takes_effect script willing (capturing [2]) 5000)
    as (w' & pass & Hrun & _ & Hevents & _);
    [reflexivity | reflexivity |].
  exists w', pass. auto.
Defined.

Lemma sample_rate_only_set_by_start_witness :
  exists b w',
    setDevice script willing 1 "line-in" (capturing [2]) = Done b w' /\
    m_sampleRate w' = 44100.
Proof.
  destruct (sample_rate_only_set_by_start script willing (capturing [2]) 1)
    as (_ & Hset & _);
    [lia|].
  exact (Hset "line-in").
Defined.

Lemma getAvailableDevices_reads_device_list_witness :
  getAvailableDevices (Some two_devices) = Some ["mic"; "line"].
Proof.
  refine (proj1 (getAvailableDevices_reads_device_list ["mic"; "line"]
                   (list_ascii_of_string "rest") _)).
  repeat constructor; try discriminate; cbn; intuition discriminate.
Defined.

Lemma getAvailableDevices_sound_witness :
  Forall device_name ["mic"; "line"] /\
  exists rest, two_devices = device_list_bytes ["mic"; "line"] ++ rest.
Proof.
  apply (getAvailableDevices_sound two_devices ["mic"; "line"]).
  vm_compute. reflexivity.
Defined.

Lemma setDevice_then_getDevice_witness :
  exists w',
    setDevice script willing 1 "line-in" (capturing [2]) = Done false w' /\
    eval getDevice w' = Some "line-in".
Proof.
  destruct (setDevice_then_getDevice script willing (capturing [2]) "line-in" 1)
    as (b & w' & Hrun & Hname);
    [lia | split; cbn; intros; [reflexivity | discriminate] |].
  assert (Hb : b = false).
  { vm_compute in Hrun. injection Hrun as Hb _. symmetry. exact Hb. }
  subst b. exists w'. split; [exact Hrun | exact Hname].
Defined.

Lemma record_runs_until_stopped_witness :
  record script willing 6 (capturing [100; 50]) = OutOfFuel.
Proof.
  apply (record_runs_until_stopped script willing (capturing [100; 50]) 6).
  - intros samples n u. reflexivity.
  - reflexivity.
Defined.
